(** * Task board: the API handlers and the board's derived views

    The server (an Express application) keeps tasks either in a
    process-local array [inMemoryTasks] or in a Mongoose collection; the
    client derives a grouped-by-status view and a completion percentage
    from the task array it fetched.  This development embeds the four
    request handlers and the two derived views, and states the
    properties of the task-board contract over them. *)

From Stdlib Require Import ZArith NArith Ascii String List Sorted.
From Stdlib Require Import Floats.SpecFloat.
From stdpp Require Import base decidable option numbers list sorting strings gmap pretty.

Local Open Scope N_scope.
Local Open Scope list_scope.

(** ** JavaScript strings

    A JavaScript string is a sequence of UTF-16 code units.  The string
    literals of the program are ASCII, and are written with [u16]. *)

Definition jsstring : Type := list N.

Definition u16 (s : string) : jsstring :=
  map N_of_ascii (list_ascii_of_string s).

(** The code units that [String.prototype.trim] strips: WhiteSpace and
    LineTerminator of the language definition. *)
Definition isWhiteSpace (c : N) : bool :=
  bool_decide (c ∈ [9; 10; 11; 12; 13; 32; 160; 5760; 8232; 8233; 8239; 8287;
                    12288; 65279])
  || ((8192 <=? c) && (c <=? 8202)).

Fixpoint trimStart (s : jsstring) : jsstring :=
  match s with
  | c :: s' => if isWhiteSpace c then trimStart s' else s
  | [] => []
  end.

Definition trimEnd (s : jsstring) : jsstring := rev (trimStart (rev s)).

Definition trim (s : jsstring) : jsstring := trimEnd (trimStart s).

(** A string is blank when it is empty or made of white space only. *)
Definition blank (s : jsstring) : Prop := Forall (λ c, isWhiteSpace c = true) s.

(** ** IEEE 754 binary64 numbers

    JavaScript numbers are binary64 floats; the Standard Library's
    [spec_float] with precision 53 and maximal exponent 1024 is their
    executable specification. *)

Definition prec : Z := 53.
Definition emax : Z := 1024.

Definition num_of_Z (z : Z) : spec_float := binary_normalize prec emax z 0 false.
Definition num_div : spec_float → spec_float → spec_float := SFdiv prec emax.
Definition num_mul : spec_float → spec_float → spec_float := SFmul prec emax.

(** [Math.round]: the integer closest to the argument, ties going up.
    The result is an integer-valued number and is returned as a [Z];
    the non-finite cases do not arise for a quotient of two counts and
    are mapped to [0]. *)
Definition Math_round (x : spec_float) : Z :=
  match x with
  | S754_finite s m e =>
      let n := if s then Z.neg m else Z.pos m in
      match e with
      | Z.neg k => (2 * n + 2 ^ Z.pos k) / 2 ^ (Z.pos k + 1)
      | _ => n * 2 ^ e
      end
  | _ => 0
  end%Z.

(** ** JSON values, as [express.json()] and the query parser deliver them *)

#[warnings="-register-all"]
Inductive JVal : Type :=
  | JUndefined
  | JNull
  | JBool (b : bool)
  | JNum (x : spec_float)
  | JStr (s : jsstring)
  | JArr (items : list JVal)
  | JObj (fields : list (jsstring * JVal)).

(** Truthiness, as used by [!v], [if (v)] and [v && ...]. *)
Definition truthy (v : JVal) : bool :=
  match v with
  | JUndefined | JNull => false
  | JBool b => b
  | JNum (S754_zero _) | JNum S754_nan => false
  | JNum _ => true
  | JStr s => negb (bool_decide (s = []))
  | JArr _ | JObj _ => true
  end.

(** [typeof v === "string"] *)
Definition isString (v : JVal) : bool :=
  match v with JStr _ => true | _ => false end.

(** [arr.includes(v)] for an array of strings: SameValueZero comparison,
    which a non-string never passes. *)
Definition includes (arr : list jsstring) (v : JVal) : bool :=
  match v with
  | JStr s => bool_decide (s ∈ arr)
  | _ => false
  end.

(** [s === v] for a string [s]. *)
Definition strictEq (s : jsstring) (v : JVal) : bool :=
  match v with
  | JStr s' => bool_decide (s = s')
  | _ => false
  end.

(** Converting a parsed JSON value to a primitive can throw: an object
    with an own [toString] key has no callable [toString] left, and its
    inherited [valueOf] returns the object itself, so the conversion
    ends in a TypeError; an array is joined, which converts its
    elements in turn.  Every other value converts. *)
Fixpoint toPrimitiveThrows (v : JVal) : bool :=
  match v with
  | JArr items => existsb toPrimitiveThrows items
  | JObj fields => existsb (λ field, bool_decide (field.1 = u16 "toString")) fields
  | _ => false
  end.

(** How an expression evaluated inside a [try] block ends. *)
Inductive Tried (A : Type) : Type :=
  | Returned (a : A)
  | Thrown.
Arguments Returned {A} a.
Arguments Thrown {A}.

(** A parsed JSON object; reading a property that is not there gives
    [undefined]. *)
Definition prop (o : gmap jsstring JVal) (k : string) : JVal :=
  default JUndefined (o !! u16 k).

(** ** The task record *)

(** The objects of [inMemoryTasks], and of the client's [tasks] state.
    [dueDate] is [null] or a date; dates are their time value in
    milliseconds. *)
Record Task : Type := mkTask {
  id : jsstring;
  title : jsstring;
  description : jsstring;
  priority : jsstring;
  status : jsstring;
  dueDate : option Z;
  createdAt : Z
}.

(** ** Board view: derived state (the client, [App]) *)

Module Board.

(** The three buckets of the [groups] object. *)
Record Groups : Type := mkGroups {
  todo : list Task;
  in_progress : list Task;
  done : list Task
}.

(** Property names every object inherits from [Object.prototype]:
    [groups[k]] is neither [undefined] nor [null] for these, so the
    optional call goes ahead, finds no [push], and throws. *)
Definition objectPrototypeKeys : list jsstring :=
  map u16 ["constructor"; "__proto__"; "hasOwnProperty"; "isPrototypeOf";
           "propertyIsEnumerable"; "toLocaleString"; "toString"; "valueOf";
           "__defineGetter__"; "__defineSetter__"; "__lookupGetter__";
           "__lookupSetter__"]%string.

(** [groups[task.status]?.push(task)]; [None] is the TypeError. *)
Definition pushTask (g : Groups) (task : Task) : option Groups :=
  let k := status task in
  if bool_decide (k = u16 "todo") then
    Some (mkGroups (todo g ++ [task]) (in_progress g) (done g))
  else if bool_decide (k = u16 "in-progress") then
    Some (mkGroups (todo g) (in_progress g ++ [task]) (done g))
  else if bool_decide (k = u16 "done") then
    Some (mkGroups (todo g) (in_progress g) (done g ++ [task]))
  else if bool_decide (k ∈ objectPrototypeKeys) then None
  else Some g.

(** The loop [for (const task of tasks)] over the fresh [groups]. *)
Fixpoint groupLoop (g : Groups) (tasks : list Task) : option Groups :=
  match tasks with
  | [] => Some g
  | task :: rest =>
      match pushTask g task with
      | Some g' => groupLoop g' rest
      | None => None
      end
  end.

Definition groupedTasks (tasks : list Task) : option Groups :=
  groupLoop (mkGroups [] [] []) tasks.

(** [tasks.filter((task) => task.status === "done").length] *)
Definition doneCount (tasks : list Task) : nat :=
  length (filter (λ task, status task = u16 "done") tasks).

Definition completionRate (tasks : list Task) : Z :=
  if bool_decide (length tasks = 0%nat) then 0%Z
  else
    Math_round
      (num_mul (num_div (num_of_Z (Z.of_nat (doneCount tasks)))
                        (num_of_Z (Z.of_nat (length tasks))))
               (num_of_Z 100)).

End Board.

(** ** API service (the server) *)

Definition allowedPriority : list jsstring := map u16 ["low"; "medium"; "high"]%string.
Definition allowedStatus : list jsstring := map u16 ["todo"; "in-progress"; "done"]%string.

(** The string inside a value that passed a string test. *)
Definition asString (v : JVal) : option jsstring :=
  match v with JStr s => Some s | _ => None end.

(** [payload] of the create handler: [title] is always set, the other
    keys only when the request carried a usable value. *)
Record Payload : Type := mkPayload {
  p_title : jsstring;
  p_description : option jsstring;
  p_priority : option jsstring;
  p_status : option jsstring;
  p_dueDate : option Z
}.

(** [update] of the patch handler: every key is optional. *)
Record Update : Type := mkUpdate {
  u_title : option jsstring;
  u_description : option jsstring;
  u_priority : option jsstring;
  u_status : option jsstring;
  u_dueDate : option Z
}.

(** [filter] handed to [Task.find]: the raw query values. *)
Record Filter : Type := mkFilter {
  flt_status : option JVal;
  flt_priority : option JVal
}.

(** A document of the [Task] collection as the handlers read it; a path
    the document does not have reads as [undefined] ([None]).  [_id] is
    kept in the form [_id.toString()] returns. *)
Record Doc : Type := mkDoc {
  _id : jsstring;
  d_title : option jsstring;
  d_description : option jsstring;
  d_priority : option jsstring;
  d_status : option jsstring;
  d_dueDate : option Z;
  d_createdAt : Z;
  d_updatedAt : Z
}.

(** The object literal the database branches send: the same keys as an
    in-memory task, with [undefined] values where the document has none
    (such a key is left out of the JSON text). *)
Record TaskJson : Type := mkTaskJson {
  j_id : jsstring;
  j_title : option jsstring;
  j_description : option jsstring;
  j_priority : option jsstring;
  j_status : option jsstring;
  j_dueDate : option Z;
  j_createdAt : Z
}.

Definition toJson (task : Doc) : TaskJson :=
  {| j_id := _id task;
     j_title := d_title task;
     j_description := d_description task;
     j_priority := d_priority task;
     j_status := d_status task;
     j_dueDate := d_dueDate task;
     j_createdAt := d_createdAt task |}.

Inductive Body : Type :=
  | BTasks (tasks : list Task)
  | BTask (task : Task)
  | BDocs (tasks : list TaskJson)
  | BDoc (task : TaskJson)
  | BError (error : string)
  | BEmpty.

Record Response : Type := mkResponse {
  code : nat;
  body : Body
}.

(** A promise of the database driver, once settled. *)
Inductive Settled (A : Type) : Type :=
  | Fulfilled (a : A)
  | Rejected.
Arguments Fulfilled {A} a.
Arguments Rejected {A}.

(** The two stores of the process: the array and the collection. *)
Record State (Db : Type) : Type := mkState {
  inMemoryTasks : list Task;
  db : Db
}.
Arguments mkState {Db} _ _.
Arguments inMemoryTasks {Db} _.
Arguments db {Db} _.

(** [!title || typeof title !== "string" || !title.trim()] *)
Definition titleRejected (title : JVal) : bool :=
  negb (truthy title)
  || match title with
     | JStr s => negb (truthy (JStr (trim s)))
     | _ => true
     end.

(** [v || d] for a string-valued key that may be missing. *)
Definition orString (v : option jsstring) (d : jsstring) : jsstring :=
  match v with
  | Some s => if truthy (JStr s) then s else d
  | None => d
  end.

(** [{ ...current, ...update }] *)
Definition spread (current : Task) (update : Update) : Task :=
  {| id := id current;
     title := default (title current) (u_title update);
     description := default (description current) (u_description update);
     priority := default (priority current) (u_priority update);
     status := default (status current) (u_status update);
     dueDate := match u_dueDate update with
                | Some d => Some d
                | None => dueDate current
                end;
     createdAt := createdAt current |}.

Section Handlers.

(** [Boolean(process.env.MONGO_URI)] *)
Variable useDatabase : bool.

(** [new Date(v)] for a value of the body that converts to a
    primitive: the time value, or [None] when [getTime()] is NaN. *)
Variable parseDate : JVal → option Z.

(** The Mongoose model [Task] over some database state. *)
Variable Db : Type.
Variable Task_find : Filter → Db → Settled (list Doc).
Variable Task_create : Payload → Db → Settled Doc * Db.
Variable Task_findByIdAndUpdate : jsstring → Update → Db → Settled (option Doc) * Db.
Variable Task_findByIdAndDelete : jsstring → Db → Settled (option Doc) * Db.

(** [if (dueDate) { parsed = new Date(dueDate); if (!isNaN(...)) ... }];
    [new Date] throws when the value does not convert to a primitive. *)
Definition dueDateField (dueDate : JVal) : Tried (option Z) :=
  if truthy dueDate then
    if toPrimitiveThrows dueDate then Thrown else Returned (parseDate dueDate)
  else Returned None.

(** GET /api/tasks *)
Definition get_tasks (status0 priority0 : JVal) (st : State Db) : Response * State Db :=
  if negb useDatabase then
    let tasks := inMemoryTasks st in
    let tasks :=
      if truthy status0
      then List.filter (λ task, strictEq (status task) status0) tasks
      else tasks in
    let tasks :=
      if truthy priority0
      then List.filter (λ task, strictEq (priority task) priority0) tasks
      else tasks in
    (mkResponse 200 (BTasks tasks), st)
  else
    let filter :=
      {| flt_status := if truthy status0 then Some status0 else None;
         flt_priority := if truthy priority0 then Some priority0 else None |} in
    match Task_find filter (db st) with
    | Fulfilled tasks => (mkResponse 200 (BDocs (map toJson tasks)), st)
    | Rejected => (mkResponse 500 (BError "Failed to load tasks"), st)
    end.

(** The statements that fill [payload]; the last one can throw. *)
Definition createPayload (title : jsstring) (body0 : gmap jsstring JVal)
    : Tried Payload :=
  let description0 := prop body0 "description" in
  let priority0 := prop body0 "priority" in
  let status0 := prop body0 "status" in
  let dueDate0 := prop body0 "dueDate" in
  match dueDateField dueDate0 with
  | Thrown => Thrown
  | Returned parsed =>
      Returned
        {| p_title := trim title;
           p_description :=
             if truthy description0 && isString description0
             then trim <$> asString description0 else None;
           p_priority :=
             if truthy priority0 && includes allowedPriority priority0
             then asString priority0 else None;
           p_status :=
             if truthy status0 && includes allowedStatus status0
             then asString status0 else None;
           p_dueDate := parsed |}
  end.

(** POST /api/tasks; [now] is [new Date()] and [dateNow] is
    [Date.now()], the two clock readings of the in-memory branch.  An
    exception thrown inside the [try] block ends in the [catch]. *)
Definition post_tasks (now dateNow : Z) (body0 : gmap jsstring JVal)
    (st : State Db) : Response * State Db :=
  let title0 := prop body0 "title" in
  if titleRejected title0 then
    (mkResponse 400 (BError "title is required"), st)
  else
    match createPayload (default [] (asString title0)) body0 with
    | Thrown => (mkResponse 500 (BError "Failed to create task"), st)
    | Returned payload =>
        if negb useDatabase then
          let task :=
            {| id := u16 (pretty dateNow);
               title := p_title payload;
               description := orString (p_description payload) (u16 "");
               priority := orString (p_priority payload) (u16 "medium");
               status := orString (p_status payload) (u16 "todo");
               dueDate := p_dueDate payload;
               createdAt := now |} in
          (mkResponse 201 (BTask task),
           mkState (task :: inMemoryTasks st) (db st))
        else
          match Task_create payload (db st) with
          | (Fulfilled task, db') =>
              (mkResponse 201 (BDoc (toJson task)),
               mkState (inMemoryTasks st) db')
          | (Rejected, db') =>
              (mkResponse 500 (BError "Failed to create task"),
               mkState (inMemoryTasks st) db')
          end
    end.

(** The statements that fill [update]; the last one can throw. *)
Definition patchUpdate (body0 : gmap jsstring JVal) : Tried Update :=
  let title0 := prop body0 "title" in
  let description0 := prop body0 "description" in
  let priority0 := prop body0 "priority" in
  let status0 := prop body0 "status" in
  let dueDate0 := prop body0 "dueDate" in
  match dueDateField dueDate0 with
  | Thrown => Thrown
  | Returned parsed =>
      Returned
        {| u_title := if isString title0 then trim <$> asString title0 else None;
           u_description :=
             if isString description0 then trim <$> asString description0
             else None;
           u_priority :=
             if truthy priority0 && includes allowedPriority priority0
             then asString priority0 else None;
           u_status :=
             if truthy status0 && includes allowedStatus status0
             then asString status0 else None;
           u_dueDate := parsed |}
  end.

(** PATCH /api/tasks/:id *)
Definition patch_task (id0 : jsstring) (body0 : gmap jsstring JVal)
    (st : State Db) : Response * State Db :=
  match patchUpdate body0 with
  | Thrown => (mkResponse 500 (BError "Failed to update task"), st)
  | Returned update =>
      if negb useDatabase then
        match list_find (λ task, id task = id0) (inMemoryTasks st) with
        | None => (mkResponse 404 (BError "Task not found"), st)
        | Some (index, current) =>
            let updated := spread current update in
            (mkResponse 200 (BTask updated),
             mkState (<[index := updated]> (inMemoryTasks st)) (db st))
        end
      else
        match Task_findByIdAndUpdate id0 update (db st) with
        | (Fulfilled None, db') =>
            (mkResponse 404 (BError "Task not found"),
             mkState (inMemoryTasks st) db')
        | (Fulfilled (Some task), db') =>
            (mkResponse 200 (BDoc (toJson task)), mkState (inMemoryTasks st) db')
        | (Rejected, db') =>
            (mkResponse 500 (BError "Failed to update task"),
             mkState (inMemoryTasks st) db')
        end
  end.

(** DELETE /api/tasks/:id *)
Definition delete_task (id0 : jsstring) (st : State Db) : Response * State Db :=
  if negb useDatabase then
    match list_find (λ task, id task = id0) (inMemoryTasks st) with
    | None => (mkResponse 404 (BError "Task not found"), st)
    | Some (index, _) =>
        (mkResponse 204 BEmpty, mkState (delete index (inMemoryTasks st)) (db st))
    end
  else
    match Task_findByIdAndDelete id0 (db st) with
    | (Fulfilled None, db') =>
        (mkResponse 404 (BError "Task not found"), mkState (inMemoryTasks st) db')
    | (Fulfilled (Some _), db') =>
        (mkResponse 204 BEmpty, mkState (inMemoryTasks st) db')
    | (Rejected, db') =>
        (mkResponse 500 (BError "Failed to delete task"),
         mkState (inMemoryTasks st) db')
    end.

(** A request together with the clock readings taken while it is
    served. *)
Inductive Request : Type :=
  | Get (status0 priority0 : JVal)
  | Post (now dateNow : Z) (body0 : gmap jsstring JVal)
  | Patch (id0 : jsstring) (body0 : gmap jsstring JVal)
  | Delete (id0 : jsstring).

Definition handle (r : Request) (st : State Db) : Response * State Db :=
  match r with
  | Get status0 priority0 => get_tasks status0 priority0 st
  | Post now dateNow body0 => post_tasks now dateNow body0 st
  | Patch id0 body0 => patch_task id0 body0 st
  | Delete id0 => delete_task id0 st
  end.

(** The state after serving the requests one after the other. *)
Fixpoint run (rs : list Request) (st : State Db) : State Db :=
  match rs with
  | [] => st
  | r :: rs' => run rs' (handle r st).2
  end.

End Handlers.

(** The clock readings of a run, in the order they are taken. *)
Fixpoint clockReadings (rs : list Request) : list Z :=
  match rs with
  | [] => []
  | Post now dateNow _ :: rs' => now :: dateNow :: clockReadings rs'
  | _ :: rs' => clockReadings rs'
  end.


(** ** The Mongoose model (models/Task.js) *)

Module Mongoose.

(** A path of type [String] and its options. *)
Record StringPath : Type := mkStringPath {
  required : bool;
  trimmed : bool;
  enum : option (list jsstring);
  default_ : option jsstring
}.

(** [taskSchema]; [dueDate] is a bare [Date] path and
    [timestamps: true] adds [createdAt] and [updatedAt]. *)
Definition schema_title : StringPath :=
  {| required := true; trimmed := true; enum := None; default_ := None |}.
Definition schema_description : StringPath :=
  {| required := false; trimmed := true; enum := None; default_ := None |}.
Definition schema_priority : StringPath :=
  {| required := false; trimmed := false;
     enum := Some (map u16 ["low"; "medium"; "high"]%string);
     default_ := Some (u16 "medium") |}.
Definition schema_status : StringPath :=
  {| required := false; trimmed := false;
     enum := Some (map u16 ["todo"; "in-progress"; "done"]%string);
     default_ := Some (u16 "todo") |}.

(** The value a path takes in a new document: the given one through the
    setter, the default when none is given, [undefined] when there is no
    default either. *)
Definition setPath (p : StringPath) (v : option jsstring) : option jsstring :=
  match v with
  | Some s => Some (if trimmed p then trim s else s)
  | None => default_ p
  end.

(** The [required] and [enum] validators. *)
Definition validPath (p : StringPath) (v : option jsstring) : bool :=
  match v with
  | Some s =>
      (negb (required p) || truthy (JStr s))
      && match enum p with
         | Some allowed => bool_decide (s ∈ allowed)
         | None => true
         end
  | None => negb (required p)
  end.

(** [Task.create(payload)] on a collection held as a list; [oid] is the
    fresh [_id] and [ts] the time of the timestamps. *)
Definition create (oid : jsstring) (ts : Z) (payload : Payload)
    (docs : list Doc) : Settled Doc * list Doc :=
  let task :=
    {| _id := oid;
       d_title := setPath schema_title (Some (p_title payload));
       d_description := setPath schema_description (p_description payload);
       d_priority := setPath schema_priority (p_priority payload);
       d_status := setPath schema_status (p_status payload);
       d_dueDate := p_dueDate payload;
       d_createdAt := ts;
       d_updatedAt := ts |} in
  if validPath schema_title (d_title task)
     && validPath schema_description (d_description task)
     && validPath schema_priority (d_priority task)
     && validPath schema_status (d_status task)
  then (Fulfilled task, docs ++ [task])
  else (Rejected, docs).

End Mongoose.

(** ** The contract, in the words of the specification *)

(** A create request has no usable title: the key is absent, its value
    is not a string, or the string trims to the empty string. *)
Definition titleMissing (body0 : gmap jsstring JVal) : Prop :=
  body0 !! u16 "title" = None
  ∨ (∀ s, body0 !! u16 "title" ≠ Some (JStr s))
  ∨ (∃ s, body0 !! u16 "title" = Some (JStr s) ∧ trim s = []).

(** A create request carries a usable title and nothing else:
    [description], [priority], [status] and [dueDate] are not in the
    body. *)
Definition titleOnly (body0 : gmap jsstring JVal) : Prop :=
  ¬ titleMissing body0
  ∧ body0 !! u16 "description" = None
  ∧ body0 !! u16 "priority" = None
  ∧ body0 !! u16 "status" = None
  ∧ body0 !! u16 "dueDate" = None.

(** A filter value is supplied when the query carries a non-empty value
    for it; a supplied value selects the tasks whose field equals it. *)
Definition supplied (q : JVal) : Prop := truthy q = true.

Definition matchesFilter (status0 priority0 : JVal) (task : Task) : Prop :=
  (supplied status0 → status0 = JStr (status task))
  ∧ (supplied priority0 → priority0 = JStr (priority task)).

(** Most recently created first. *)
Definition newestFirst (tasks : list Task) : Prop :=
  StronglySorted (λ a b, (createdAt b ≤ createdAt a)%Z) tasks.

(** The clock never runs backwards during a run. *)
Definition monotoneClock (rs : list Request) : Prop :=
  StronglySorted Z.le (clockReadings rs).

(** Valid values of the fields an update may carry. *)
Definition validPriority (v : JVal) : Prop := ∃ p, v = JStr p ∧ p ∈ allowedPriority.
Definition validStatus (v : JVal) : Prop := ∃ s, v = JStr s ∧ s ∈ allowedStatus.
Definition validString (v : JVal) : Prop := ∃ s, v = JStr s.
Definition validDate (parseDate : JVal → option Z) (v : JVal) : Prop :=
  truthy v = true ∧ toPrimitiveThrows v = false ∧ is_Some (parseDate v).

(** The [dueDate] of a body makes [new Date] throw. *)
Definition dateThrows (body0 : gmap jsstring JVal) : Prop :=
  truthy (prop body0 "dueDate") = true
  ∧ toPrimitiveThrows (prop body0 "dueDate") = true.

(** [round(100 * doneN / total)], halves going up, and 0 for an empty
    collection: the integer nearest to the exact quotient. *)
Definition roundedPercent (doneN total : nat) : Z :=
  if bool_decide (total = 0%nat) then 0%Z
  else ((200 * Z.of_nat doneN + Z.of_nat total) / (2 * Z.of_nat total))%Z.

(** A database that cannot be reached: every call is rejected. *)
Definition noDb_find (f : Filter) (d : unit) : Settled (list Doc) := Rejected.
Definition noDb_create (p : Payload) (d : unit) : Settled Doc * unit := (Rejected, d).
Definition noDb_update (i : jsstring) (u : Update) (d : unit) : Settled (option Doc) * unit :=
  (Rejected, d).
Definition noDb_delete (i : jsstring) (d : unit) : Settled (option Doc) * unit :=
  (Rejected, d).

(** ** Board view: requests and local state (the client, [App]) *)

Module App.

(** The state hooks of the component. *)
Record AppState : Type := mkApp {
  tasks : list Task;
  title : jsstring;
  description : jsstring;
  priority : jsstring;
  dueDate : jsstring;
  statusFilter : jsstring;
  priorityFilter : jsstring;
  loading : bool;
  error : jsstring
}.

(** How an [await fetch(...)] and the reading of its body end: the
    fetch is rejected with an error of that message, or a response of
    that status arrives, whose [json()] is rejected with a message or
    yields the data. *)
Inductive Fetched (A : Type) : Type :=
  | Failed (message : jsstring)
  | Answered (code0 : nat) (json : jsstring + A).
Arguments Failed {A} message.
Arguments Answered {A} code0 json.

(** [response.ok]: a status from 200 to 299. *)
Definition ok (code0 : nat) : bool := (200 <=? code0)%nat && (code0 <=? 299)%nat.

(** [err.message || "Something went wrong"] *)
Definition orWentWrong (message : jsstring) : jsstring :=
  if truthy (JStr message) then message else u16 "Something went wrong".

(** The state once a call has settled: [setError] and the
    [setLoading(false)] of the [finally] block. *)
Definition failed (message : jsstring) (st : AppState) : AppState :=
  mkApp (tasks st) (title st) (description st) (priority st) (dueDate st)
        (statusFilter st) (priorityFilter st) false (orWentWrong message).

Definition loaded (tasks' : list Task) (st : AppState) : AppState :=
  mkApp tasks' (title st) (description st) (priority st) (dueDate st)
        (statusFilter st) (priorityFilter st) false (u16 "").

(** The query of [loadTasks], as the values the server reads from
    [req.query]: a parameter is set unless its filter is ["all"]. *)
Definition loadQuery (st : AppState) : JVal * JVal :=
  (if bool_decide (statusFilter st = u16 "all") then JUndefined
   else JStr (statusFilter st),
   if bool_decide (priorityFilter st = u16 "all") then JUndefined
   else JStr (priorityFilter st)).

Definition loadTasks (fetch : JVal → JVal → Fetched (list Task))
    (st : AppState) : AppState :=
  match fetch (loadQuery st).1 (loadQuery st).2 with
  | Failed message => failed message st
  | Answered code0 json =>
      if negb (ok code0) then failed (u16 "Failed to load tasks") st
      else match json with
           | inl message => failed message st
           | inr data => loaded data st
           end
  end.

(** The body of the create request; [dueDate: dueDate || undefined]
    leaves the key out of the JSON text when the field is empty. *)
Definition createBody (st : AppState) : gmap jsstring JVal :=
  let fields : gmap jsstring JVal :=
    {[ u16 "title" := JStr (title st);
       u16 "description" := JStr (description st);
       u16 "priority" := JStr (priority st) ]} in
  if truthy (JStr (dueDate st))
  then <[ u16 "dueDate" := JStr (dueDate st) ]> fields
  else fields.

Definition handleCreateTask (fetch : gmap jsstring JVal → Fetched Task)
    (st : AppState) : AppState :=
  if negb (truthy (JStr (trim (title st)))) then st
  else
    match fetch (createBody st) with
    | Failed message => failed message st
    | Answered code0 json =>
        if negb (ok code0) then failed (u16 "Failed to create task") st
        else match json with
             | inl message => failed message st
             | inr created =>
                 mkApp (created :: tasks st) (u16 "") (u16 "") (u16 "medium")
                       (u16 "") (statusFilter st) (priorityFilter st)
                       false (u16 "")
             end
    end.

Definition updateTask (fetch : jsstring → gmap jsstring JVal → Fetched Task)
    (id0 : jsstring) (updates : gmap jsstring JVal) (st : AppState) : AppState :=
  match fetch id0 updates with
  | Failed message => failed message st
  | Answered code0 json =>
      if negb (ok code0) then failed (u16 "Failed to update task") st
      else match json with
           | inl message => failed message st
           | inr updated =>
               loaded (map (λ task, if bool_decide (id task = id0)
                                    then updated else task) (tasks st)) st
           end
  end.

(** [deleteTask] does not read the body of the response. *)
Definition deleteTask (fetch : jsstring → Fetched unit)
    (id0 : jsstring) (st : AppState) : AppState :=
  match fetch id0 with
  | Failed message => failed message st
  | Answered code0 _ =>
      if negb (ok code0) && negb (bool_decide (code0 = 204%nat))
      then failed (u16 "Failed to delete task") st
      else loaded (filter (λ task, id task ≠ id0) (tasks st)) st
  end.

End App.

(** The client receives what the server answered: the status, and the
    task of the body when the body is one. *)
Definition delivered (r : Response) (f : App.Fetched Task) : Prop :=
  ∃ json, f = App.Answered (code r) json
          ∧ ∀ task, body r = BTask task → json = inr task.

Definition deliveredList (r : Response) (f : App.Fetched (list Task)) : Prop :=
  ∃ json, f = App.Answered (code r) json
          ∧ ∀ tasks, body r = BTasks tasks → json = inr tasks.

Definition deliveredStatus (r : Response) (f : App.Fetched unit) : Prop :=
  ∃ json, f = App.Answered (code r) json.

(** A call that does not succeed: the fetch is rejected, the status is
    not one of success, or the body cannot be read. *)
Definition unsuccessful {A : Type} (f : App.Fetched A) : Prop :=
  match f with
  | App.Failed _ => True
  | App.Answered code0 json => App.ok code0 = false ∨ ∃ message, json = inl message
  end.

(** An update request that would blank a title: its [title] is a
    string that trims to the empty string. *)
Definition blanksTitle (r : Request) : Prop :=
  match r with
  | Patch _ body0 => ∃ s, body0 !! u16 "title" = Some (JStr s) ∧ trim s = []
  | _ => False
  end.

(** ** Start-up (the server entry point and config/db.js) *)

Module Startup.

(** What [start] does, in order. *)
Inductive Event : Type :=
  | Log (line : string)
  | LogError (line : string)
  | Listen (port : jsstring + Z).

(** A variable of [process.env]: not set, or a string. *)
Definition envTruthy (v : option jsstring) : bool :=
  match v with
  | Some s => truthy (JStr s)
  | None => false
  end.

(** [connectToDatabase]: [None] is the thrown "MONGO_URI is not set",
    otherwise the promise of [mongoose.connect(uri)]. *)
Definition connectToDatabase (connect : jsstring → Settled unit)
    (MONGO_URI : option jsstring) : option (Settled unit) :=
  match MONGO_URI with
  | Some uri => if negb (truthy (JStr uri)) then None else Some (connect uri)
  | None => None
  end.

(** [start], with [useDatabase] and [port] computed from the
    environment as the module does. *)
Definition start (connect : jsstring → Settled unit)
    (MONGO_URI PORT : option jsstring) : list Event :=
  let useDatabase := envTruthy MONGO_URI in
  let port := match PORT with
              | Some p => if truthy (JStr p) then inl p else inr 4000%Z
              | None => inr 4000%Z
              end in
  (if useDatabase then
     match connectToDatabase connect MONGO_URI with
     | Some (Fulfilled _) => [Log "Connected to MongoDB"]
     | _ => [LogError "MongoDB connection error"]
     end
   else [])
  ++ [Listen port].

End Startup.

(** * Properties *)

(** ** Trimming *)

Lemma trimStart_nil (s : jsstring) : trimStart s = [] ↔ blank s.
Proof.
  unfold blank. induction s as [|c s IH]; simpl.
  - split; [constructor | reflexivity].
  - destruct (isWhiteSpace c) eqn:Hc.
    + rewrite IH. split; [by constructor | by inversion 1].
    + split; [discriminate | inversion 1; congruence].
Qed.

Lemma trimStart_head (s : jsstring) c r :
  trimStart s = c :: r → isWhiteSpace c = false.
Proof.
  induction s as [|d s IH]; simpl; [discriminate |].
  destruct (isWhiteSpace d) eqn:Hd; [exact IH | congruence].
Qed.

Lemma trimStart_not_blank (s : jsstring) : trimStart s ≠ [] → ¬ blank (trimStart s).
Proof.
  destruct (trimStart s) as [|c r] eqn:E; [done |].
  intros _ Hb. apply trimStart_head in E. inversion Hb; congruence.
Qed.

Lemma blank_rev (s : jsstring) : blank (rev s) ↔ blank s.
Proof.
  unfold blank. split; intros H; apply Forall_rev in H; [| done].
  by rewrite rev_involutive in H.
Qed.

Lemma rev_eq_nil (s : jsstring) : rev s = [] ↔ s = [].
Proof.
  split; [| by intros ->].
  intros H. apply (f_equal (@rev N)) in H. by rewrite rev_involutive in H.
Qed.

(** A string trims to the empty string exactly when it is blank. *)
Lemma trim_nil (s : jsstring) : trim s = [] ↔ blank s.
Proof.
  unfold trim, trimEnd. rewrite rev_eq_nil, trimStart_nil, blank_rev.
  split.
  - intros Hb. apply trimStart_nil.
    destruct (decide (trimStart s = [])) as [|Hne]; [done |].
    by destruct (trimStart_not_blank s Hne).
  - intros Hb. apply trimStart_nil in Hb. rewrite Hb. constructor.
Qed.

(** What is left after trimming is empty or not blank. *)
Lemma trim_not_blank (s : jsstring) : trim s ≠ [] → ¬ blank (trim s).
Proof.
  unfold trim, trimEnd. intros Hne Hb.
  rewrite blank_rev in Hb. revert Hb. apply trimStart_not_blank.
  intros E. apply Hne. by rewrite E.
Qed.

(** ** Create *)

Lemma titleRejected_string (s : jsstring) :
  titleRejected (JStr s) = true ↔ trim s = [].
Proof.
  unfold titleRejected, truthy. rewrite !negb_involutive.
  rewrite orb_true_iff, !bool_decide_eq_true.
  split; [intros [-> | H]; done | by right].
Qed.

Lemma titleRejected_other (v : JVal) :
  isString v = false → titleRejected v = true.
Proof. destruct v; try discriminate; intros _; apply orb_true_r. Qed.

Lemma titleRejected_spec (body0 : gmap jsstring JVal) :
  titleRejected (prop body0 "title") = true ↔ titleMissing body0.
Proof.
  unfold prop, titleMissing.
  destruct (body0 !! u16 "title") as [v|] eqn:E; simpl.
  - destruct (isString v) eqn:Hv.
    + destruct v as [| |b|x|s|l|l]; try discriminate.
      rewrite titleRejected_string. split.
      * intros H. right. right. by exists s.
      * intros [H | [H | (s' & H & Ht)]]; [done | by destruct (H s) |].
        by injection H as <-.
    + rewrite (titleRejected_other v Hv). split; [| done].
      intros _. right. left. intros s [= ->]. discriminate.
  - split; [by left | done].
Qed.

(** C5. A create request whose title is absent, is not a string, or
    trims to the empty string is answered with 400 in either storage
    mode, and neither the array nor the database state is touched. *)
Theorem post_without_title_rejected
    (useDatabase : bool) (parseDate : JVal → option Z) (Db : Type)
    (Task_create : Payload → Db → Settled Doc * Db)
    (now dateNow : Z) (body0 : gmap jsstring JVal) (st : State Db) :
  titleMissing body0 →
  post_tasks useDatabase parseDate Db Task_create now dateNow body0 st
  = (mkResponse 400 (BError "title is required"), st).
Proof.
  intros H. apply titleRejected_spec in H. unfold post_tasks. by rewrite H.
Qed.

Lemma post_without_title_rejected_witness :
  titleMissing {[ u16 "title" := JStr (u16 "   ") ]}
  ∧ post_tasks true (λ _, None) (list Doc) (Mongoose.create (u16 "65f0") 7)
      7 7 {[ u16 "title" := JStr (u16 "   ") ]} (mkState [] [])
    = (mkResponse 400 (BError "title is required"), mkState [] []).
Proof.
  assert (H : titleMissing {[ u16 "title" := JStr (u16 "   ") ]}).
  { right. right. exists (u16 "   "). split; vm_compute; reflexivity. }
  split; [exact H |].
  exact (post_without_title_rejected true (λ _, None) (list Doc)
           (Mongoose.create (u16 "65f0") 7) 7 7 _ (mkState [] []) H).
Defined.

(** The date of a body either makes [new Date] throw, and then no
    payload and no update is built, or is read as the parsed date of a
    valid value and as none otherwise. *)
Lemma dueDateField_spec (parseDate : JVal → option Z) (body0 : gmap jsstring JVal) :
  (dateThrows body0
   ∧ dueDateField parseDate (prop body0 "dueDate") = Thrown)
  ∨ (¬ dateThrows body0
     ∧ ∃ parsed,
         dueDateField parseDate (prop body0 "dueDate") = Returned parsed
         ∧ (validDate parseDate (prop body0 "dueDate") →
              parsed = parseDate (prop body0 "dueDate"))
         ∧ (¬ validDate parseDate (prop body0 "dueDate") → parsed = None)).
Proof.
  unfold dateThrows, validDate, dueDateField.
  destruct (truthy (prop body0 "dueDate")) eqn:Hv.
  - destruct (toPrimitiveThrows (prop body0 "dueDate")) eqn:Ht.
    + by left.
    + right. split; [by intros [_ ?] |]. eexists. split; [reflexivity |].
      split; [done |]. intros H.
      destruct (parseDate (prop body0 "dueDate")) eqn:E; [| done].
      destruct H. by repeat split.
  - right. split; [by intros [? _] |]. exists None. split; [done |].
    split; [by intros [? _] | done].
Qed.

Lemma createPayload_spec (parseDate : JVal → option Z) (s : jsstring)
    (body0 : gmap jsstring JVal) :
  (dateThrows body0 ∧ createPayload parseDate s body0 = Thrown)
  ∨ (¬ dateThrows body0
     ∧ ∃ parsed,
         createPayload parseDate s body0
         = Returned
             {| p_title := trim s;
                p_description :=
                  if truthy (prop body0 "description")
                     && isString (prop body0 "description")
                  then trim <$> asString (prop body0 "description") else None;
                p_priority :=
                  if truthy (prop body0 "priority")
                     && includes allowedPriority (prop body0 "priority")
                  then asString (prop body0 "priority") else None;
                p_status :=
                  if truthy (prop body0 "status")
                     && includes allowedStatus (prop body0 "status")
                  then asString (prop body0 "status") else None;
                p_dueDate := parsed |}
         ∧ (validDate parseDate (prop body0 "dueDate") →
              parsed = parseDate (prop body0 "dueDate"))
         ∧ (¬ validDate parseDate (prop body0 "dueDate") → parsed = None)).
Proof.
  unfold createPayload.
  destruct (dueDateField_spec parseDate body0) as [[H ->] | (H & parsed & -> & Hp)].
  - by left.
  - right. split; [done |]. by exists parsed.
Qed.

Lemma patchUpdate_spec (parseDate : JVal → option Z) (body0 : gmap jsstring JVal) :
  (dateThrows body0 ∧ patchUpdate parseDate body0 = Thrown)
  ∨ (¬ dateThrows body0
     ∧ ∃ parsed,
         patchUpdate parseDate body0
         = Returned
             {| u_title :=
                  if isString (prop body0 "title")
                  then trim <$> asString (prop body0 "title") else None;
                u_description :=
                  if isString (prop body0 "description")
                  then trim <$> asString (prop body0 "description") else None;
                u_priority :=
                  if truthy (prop body0 "priority")
                     && includes allowedPriority (prop body0 "priority")
                  then asString (prop body0 "priority") else None;
                u_status :=
                  if truthy (prop body0 "status")
                     && includes allowedStatus (prop body0 "status")
                  then asString (prop body0 "status") else None;
                u_dueDate := parsed |}
         ∧ (validDate parseDate (prop body0 "dueDate") →
              parsed = parseDate (prop body0 "dueDate"))
         ∧ (¬ validDate parseDate (prop body0 "dueDate") → parsed = None)).
Proof.
  unfold patchUpdate.
  destruct (dueDateField_spec parseDate body0) as [[H ->] | (H & parsed & -> & Hp)].
  - by left.
  - right. split; [done |]. by exists parsed.
Qed.

(** A create request with a usable title and a date that converts is
    accepted by the in-memory branch, and the stored title is the
    trimmed one, which is not blank. *)
Lemma post_stores_trimmed_title
    (parseDate : JVal → option Z) (Db : Type)
    (Task_create : Payload → Db → Settled Doc * Db)
    (now dateNow : Z) (body0 : gmap jsstring JVal) (st : State Db) :
  ¬ titleMissing body0 →
  ¬ dateThrows body0 →
  ∃ s task,
    body0 !! u16 "title" = Some (JStr s)
    ∧ post_tasks false parseDate Db Task_create now dateNow body0 st
      = (mkResponse 201 (BTask task), mkState (task :: inMemoryTasks st) (db st))
    ∧ title task = trim s ∧ ¬ blank (title task).
Proof.
  intros H Hdate. rewrite <- titleRejected_spec in H.
  apply not_true_is_false in H.
  unfold post_tasks. rewrite H.
  destruct (createPayload_spec parseDate
              (default [] (asString (prop body0 "title"))) body0)
    as [[Hthrows _] | (_ & parsed & -> & _)]; [done |].
  cbn [negb p_title].
  unfold prop in H |- *.
  destruct (body0 !! u16 "title") as [v|] eqn:E; simpl in H |- *;
    [| discriminate].
  destruct (isString v) eqn:Hv;
    [| by rewrite (titleRejected_other v Hv) in H].
  destruct v as [| |b|x|s|l|l]; try discriminate.
  exists s. eexists. split; [done |]. split; [reflexivity |]. simpl.
  split; [done |]. apply trim_not_blank.
  intros Ht. apply titleRejected_string in Ht. congruence.
Qed.

(** ** Identifiers that do not resolve *)

Lemma find_unknown (tasks : list Task) (id0 : jsstring) :
  (∀ task, task ∈ tasks → id task ≠ id0) →
  list_find (λ task, id task = id0) tasks = None.
Proof. intros H. apply list_find_None, Forall_forall. exact H. Qed.

Lemma find_known (tasks : list Task) (id0 : jsstring) index current :
  list_find (λ task, id task = id0) tasks = Some (index, current) →
  tasks !! index = Some current ∧ id current = id0.
Proof. intros H. apply list_find_Some in H. tauto. Qed.

Lemma filter_elem_of {A : Type} (f : A → bool) (l : list A) (x : A) :
  x ∈ List.filter f l ↔ x ∈ l ∧ f x = true.
Proof. rewrite !list_elem_of_In. apply filter_In. Qed.

Lemma filter_sublist {A : Type} (f : A → bool) (l : list A) :
  List.filter f l `sublist_of` l.
Proof.
  induction l as [|x l IH]; simpl; [constructor |].
  destruct (f x); by constructor.
Qed.

Lemma strictEq_true (s : jsstring) (v : JVal) :
  strictEq s v = true ↔ v = JStr s.
Proof.
  destruct v as [| |b|x|s'|l|l]; simpl; try (split; intros; discriminate).
  rewrite bool_decide_eq_true. split; congruence.
Qed.

(** What the in-memory list handler answers. *)
Lemma get_tasks_memory (Db : Type) (Task_find : Filter → Db → Settled (list Doc))
    (status0 priority0 : JVal) (st : State Db) :
  ∃ tasks,
    get_tasks false Db Task_find status0 priority0 st
    = (mkResponse 200 (BTasks tasks), st)
    ∧ tasks `sublist_of` inMemoryTasks st
    ∧ ∀ task, task ∈ tasks ↔
        task ∈ inMemoryTasks st ∧ matchesFilter status0 priority0 task.
Proof.
  unfold get_tasks, matchesFilter, supplied. simpl.
  eexists. split; [reflexivity |].
  destruct (truthy status0) eqn:Hs, (truthy priority0) eqn:Hp.
  - split; [by etrans; apply filter_sublist |].
    intros task. rewrite !filter_elem_of, !strictEq_true. tauto.
  - split; [apply filter_sublist |].
    intros task. rewrite filter_elem_of, strictEq_true. intuition congruence.
  - split; [apply filter_sublist |].
    intros task. rewrite filter_elem_of, strictEq_true. intuition congruence.
  - split; [done |]. intros task. intuition congruence.
Qed.

(** The database branch of the list handler hands the supplied filter
    values to [Task.find] and answers with the documents it returns, in
    the order it returns them. *)
Lemma get_tasks_database (Db : Type) (Task_find : Filter → Db → Settled (list Doc))
    (status0 priority0 : JVal) (st : State Db) (docs : list Doc) :
  Task_find {| flt_status := if truthy status0 then Some status0 else None;
               flt_priority := if truthy priority0 then Some priority0 else None |}
    (db st) = Fulfilled docs →
  get_tasks true Db Task_find status0 priority0 st
  = (mkResponse 200 (BDocs (toJson <$> docs)), st).
Proof. intros H. unfold get_tasks. simpl. by rewrite H. Qed.

(** An update whose [dueDate] makes [new Date] throw is answered 500 in
    either mode, before the id is looked up, and changes nothing. *)
Lemma patch_date_throws
    (useDatabase : bool) (parseDate : JVal → option Z) (Db : Type)
    (Task_findByIdAndUpdate : jsstring → Update → Db → Settled (option Doc) * Db)
    (id0 : jsstring) (body0 : gmap jsstring JVal) (st : State Db) :
  dateThrows body0 →
  patch_task useDatabase parseDate Db Task_findByIdAndUpdate id0 body0 st
  = (mkResponse 500 (BError "Failed to update task"), st).
Proof.
  intros H. unfold patch_task.
  by destruct (patchUpdate_spec parseDate body0) as [[_ ->] | [Hn _]].
Qed.

(** In the in-memory mode a delete whose id matches no stored task is
    answered 404, and so is an update whose date converts; after such a
    delete no listing contains a task with that id. *)
Lemma unknown_id_memory
    (parseDate : JVal → option Z) (Db : Type)
    (Task_find : Filter → Db → Settled (list Doc))
    (Task_findByIdAndUpdate : jsstring → Update → Db → Settled (option Doc) * Db)
    (Task_findByIdAndDelete : jsstring → Db → Settled (option Doc) * Db)
    (id0 : jsstring) (body0 : gmap jsstring JVal) (status0 priority0 : JVal)
    (st : State Db) :
  (∀ task, task ∈ inMemoryTasks st → id task ≠ id0) →
  let deleted := delete_task false Db Task_findByIdAndDelete id0 st in
  (¬ dateThrows body0 →
   patch_task false parseDate Db Task_findByIdAndUpdate id0 body0 st
   = (mkResponse 404 (BError "Task not found"), st))
  ∧ deleted = (mkResponse 404 (BError "Task not found"), st)
  ∧ ∃ tasks,
      (get_tasks false Db Task_find status0 priority0 deleted.2).1
      = mkResponse 200 (BTasks tasks)
      ∧ ∀ task, task ∈ tasks → id task ≠ id0.
Proof.
  intros H deleted.
  assert (Ed : deleted = (mkResponse 404 (BError "Task not found"), st)).
  { subst deleted. unfold delete_task. simpl. by rewrite (find_unknown _ _ H). }
  split; [| split; [exact Ed |]].
  - intros Hdate. unfold patch_task.
    destruct (patchUpdate_spec parseDate body0)
      as [[Ht _] | (_ & parsed & -> & _)]; [done |].
    cbn [negb]. by rewrite (find_unknown _ _ H).
  - rewrite Ed. cbn [snd].
    destruct (get_tasks_memory Db Task_find status0 priority0 st)
      as (tasks & E & _ & Hin).
    exists tasks. rewrite E. split; [done |].
    intros task Ht. apply H. by apply Hin.
Qed.

(** C7. An update of an id that no stored task has, with a [dueDate]
    that is an object carrying a [toString] key: [new Date] throws
    before the id is looked up, and the answer is 500, not 404.  A
    delete of the same id is answered 404. *)
Theorem patch_unknown_id_answers_500
    (parseDate : JVal → option Z) (Db : Type)
    (Task_findByIdAndUpdate : jsstring → Update → Db → Settled (option Doc) * Db)
    (Task_findByIdAndDelete : jsstring → Db → Settled (option Doc) * Db)
    (d0 : Db) :
  let task := mkTask (u16 "1") (u16 "a") [] (u16 "low") (u16 "todo") None 1 in
  let st := mkState [task] d0 in
  let body0 : gmap jsstring JVal :=
    {[ u16 "dueDate" := JObj [(u16 "toString", JNum (num_of_Z 1))] ]} in
  list_find (λ t, id t = u16 "2") (inMemoryTasks st) = None
  ∧ patch_task false parseDate Db Task_findByIdAndUpdate (u16 "2") body0 st
    = (mkResponse 500 (BError "Failed to update task"), st)
  ∧ delete_task false Db Task_findByIdAndDelete (u16 "2") st
    = (mkResponse 404 (BError "Task not found"), st).
Proof. intros task st body0. repeat split; vm_compute; reflexivity. Qed.

(** The database branches answer 404 exactly when the model finds no
    document. *)
Lemma database_not_found_iff_null
    (parseDate : JVal → option Z) (Db : Type)
    (Task_findByIdAndUpdate : jsstring → Update → Db → Settled (option Doc) * Db)
    (Task_findByIdAndDelete : jsstring → Db → Settled (option Doc) * Db)
    (id0 : jsstring) (body0 : gmap jsstring JVal) (st : State Db) :
  let patched := patch_task true parseDate Db Task_findByIdAndUpdate id0 body0 st in
  let deleted := delete_task true Db Task_findByIdAndDelete id0 st in
  (code patched.1 = 404%nat ↔
     ∃ update, patchUpdate parseDate body0 = Returned update
       ∧ (Task_findByIdAndUpdate id0 update (db st)).1 = Fulfilled None)
  ∧ (code deleted.1 = 404%nat ↔
     (Task_findByIdAndDelete id0 (db st)).1 = Fulfilled None).
Proof.
  unfold patch_task, delete_task. simpl. split.
  - destruct (patchUpdate parseDate body0) as [update|]; simpl.
    + destruct (Task_findByIdAndUpdate _ _ _) as [[[t|]|] d1] eqn:E; simpl;
        split; try done.
      * intros (u & [= <-] & Hu). by rewrite E in Hu.
      * intros _. exists update. by rewrite E.
      * intros (u & [= <-] & Hu). by rewrite E in Hu.
    + split; [done |]. by intros (u & Hu & _).
  - destruct (Task_findByIdAndDelete _ _) as [[[t'|]|] d2]; simpl;
      split; intros; done.
Qed.

(** C10. In the in-memory mode a request answered with 404 leaves the
    state exactly as it was: nothing is added, removed or modified. *)
Theorem not_found_leaves_store
    (parseDate : JVal → option Z) (Db : Type)
    (Task_find : Filter → Db → Settled (list Doc))
    (Task_create : Payload → Db → Settled Doc * Db)
    (Task_findByIdAndUpdate : jsstring → Update → Db → Settled (option Doc) * Db)
    (Task_findByIdAndDelete : jsstring → Db → Settled (option Doc) * Db)
    (r : Request) (st : State Db) :
  let served :=
    handle false parseDate Db Task_find Task_create Task_findByIdAndUpdate
      Task_findByIdAndDelete r st in
  (∃ id0, r = Delete id0 ∨ ∃ body0, r = Patch id0 body0) →
  code served.1 = 404%nat →
  served.2 = st.
Proof.
  intros served (id0 & [-> | (body0 & ->)]); subst served; simpl.
  - unfold delete_task. simpl.
    destruct (list_find _ _) as [[index current]|]; simpl; [discriminate | done].
  - unfold patch_task. destruct (patchUpdate _ _); simpl; [| done].
    destruct (list_find _ _) as [[index current]|]; simpl; [discriminate | done].
Qed.

Lemma not_found_leaves_store_witness :
  let task := mkTask (u16 "1") (u16 "a") [] (u16 "low") (u16 "todo") None 1 in
  (handle false (λ _, None) unit noDb_find noDb_create noDb_update noDb_delete
     (Delete (u16 "2")) (mkState [task] tt)).2
  = mkState [task] tt.
Proof.
  intros task.
  apply (not_found_leaves_store (λ _, None) unit noDb_find noDb_create
           noDb_update noDb_delete (Delete (u16 "2")) (mkState [task] tt)).
  - exists (u16 "2"). by left.
  - vm_compute. reflexivity.
Defined.

(** ** Update *)

Lemma allowedPriority_nonempty : [] ∉ allowedPriority.
Proof. apply (bool_decide_unpack _). vm_compute. exact I. Qed.

Lemma allowedStatus_nonempty : [] ∉ allowedStatus.
Proof. apply (bool_decide_unpack _). vm_compute. exact I. Qed.

(** The guard [v && allowed.includes(v)] lets through exactly the
    strings of the enumeration. *)
Lemma enum_guard (allowed : list jsstring) (v : JVal) :
  [] ∉ allowed →
  (if truthy v && includes allowed v then asString v else None)
  = match v with
    | JStr p => if decide (p ∈ allowed) then Some p else None
    | _ => None
    end.
Proof.
  intros Hne. destruct v as [| |b|x|p|l|l]; simpl;
    rewrite ?andb_false_r; try reflexivity.
  destruct (decide (p ∈ allowed)) as [Hin|Hin].
  - rewrite (bool_decide_eq_true_2 _ Hin), andb_true_r.
    destruct (decide (p = [])) as [->|Hp]; [done |].
    by rewrite (bool_decide_eq_false_2 _ Hp).
  - by rewrite (bool_decide_eq_false_2 _ Hin), andb_false_r.
Qed.

Lemma string_guard (v : JVal) :
  (if isString v then trim <$> asString v else None)
  = match v with JStr s => Some (trim s) | _ => None end.
Proof. by destruct v. Qed.

(** In the in-memory mode an update of a stored task whose date
    converts succeeds with the merged record, which replaces the old one
    in place.  [id] and [createdAt] keep their values whatever the body
    holds; each of the five other fields takes the value of the body
    when that value is valid and keeps its previous value otherwise, a
    priority or status outside its enumeration included; with no valid
    field the record and the whole state are unchanged. *)
Lemma patch_fields_memory
    (parseDate : JVal → option Z) (Db : Type)
    (Task_findByIdAndUpdate : jsstring → Update → Db → Settled (option Doc) * Db)
    (id0 : jsstring) (body0 : gmap jsstring JVal) (st : State Db)
    (index : nat) (current : Task) :
  list_find (λ task, id task = id0) (inMemoryTasks st) = Some (index, current) →
  ¬ dateThrows body0 →
  ∃ updated,
    patch_task false parseDate Db Task_findByIdAndUpdate id0 body0 st
    = (mkResponse 200 (BTask updated),
       mkState (<[index := updated]> (inMemoryTasks st)) (db st))
    ∧ id updated = id current
    ∧ createdAt updated = createdAt current
    ∧ (∀ s, prop body0 "title" = JStr s → title updated = trim s)
    ∧ (¬ validString (prop body0 "title") → title updated = title current)
    ∧ (∀ s, prop body0 "description" = JStr s → description updated = trim s)
    ∧ (¬ validString (prop body0 "description") →
         description updated = description current)
    ∧ (validPriority (prop body0 "priority") →
         JStr (priority updated) = prop body0 "priority")
    ∧ (¬ validPriority (prop body0 "priority") →
         priority updated = priority current)
    ∧ (validStatus (prop body0 "status") →
         JStr (status updated) = prop body0 "status")
    ∧ (¬ validStatus (prop body0 "status") → status updated = status current)
    ∧ (validDate parseDate (prop body0 "dueDate") →
         dueDate updated = parseDate (prop body0 "dueDate"))
    ∧ (¬ validDate parseDate (prop body0 "dueDate") →
         dueDate updated = dueDate current)
    ∧ (¬ validString (prop body0 "title") →
       ¬ validString (prop body0 "description") →
       ¬ validPriority (prop body0 "priority") →
       ¬ validStatus (prop body0 "status") →
       ¬ validDate parseDate (prop body0 "dueDate") →
       updated = current
       ∧ <[index := updated]> (inMemoryTasks st) = inMemoryTasks st).
Proof.
  intros Hfind Hdate. unfold patch_task.
  destruct (patchUpdate_spec parseDate body0)
    as [[Hthrows _] | (_ & parsed & -> & Hq1 & Hq2)]; [done |].
  cbn [negb]. rewrite Hfind.
  eexists. split; [reflexivity |].
  unfold spread. cbn [u_title u_description u_priority
    u_status u_dueDate id title description priority status dueDate createdAt].
  rewrite !string_guard.
  rewrite (enum_guard _ _ allowedPriority_nonempty).
  rewrite (enum_guard _ _ allowedStatus_nonempty).
  set (vt := prop body0 "title") in *. set (vd := prop body0 "description") in *.
  set (vp := prop body0 "priority") in *. set (vs := prop body0 "status") in *.
  set (vq := prop body0 "dueDate") in *.
  assert (Ht : ¬ validString vt → match vt with JStr s => Some (trim s) | _ => None end = None).
  { intros H. destruct vt; try done. destruct H. by eexists. }
  assert (Hd : ¬ validString vd → match vd with JStr s => Some (trim s) | _ => None end = None).
  { intros H. destruct vd; try done. destruct H. by eexists. }
  assert (Hp : ¬ validPriority vp →
    match vp with
    | JStr p => if decide (p ∈ allowedPriority) then Some p else None
    | _ => None end = None).
  { intros H. destruct vp as [| |b|x|p|l|l]; try done.
    case_decide; [| done]. destruct H. by exists p. }
  assert (Hs : ¬ validStatus vs →
    match vs with
    | JStr p => if decide (p ∈ allowedStatus) then Some p else None
    | _ => None end = None).
  { intros H. destruct vs as [| |b|x|p|l|l]; try done.
    case_decide; [| done]. destruct H. by exists p. }
  split; [done |]. split; [done |].
  split; [by intros s -> |].
  split; [intros H; by rewrite (Ht H) |].
  split; [by intros s -> |].
  split; [intros H; by rewrite (Hd H) |].
  split; [intros (p & -> & Hin); by rewrite (decide_True _ _ Hin) |].
  split; [intros H; by rewrite (Hp H) |].
  split; [intros (p & -> & Hin); by rewrite (decide_True _ _ Hin) |].
  split; [intros H; by rewrite (Hs H) |].
  split.
  { intros Hv. rewrite (Hq1 Hv). destruct Hv as (_ & _ & [d Hd']).
    by rewrite Hd'. }
  split; [intros H; by rewrite (Hq2 H) |].
  intros H1 H2 H3 H4 H5.
  rewrite (Ht H1), (Hd H2), (Hp H3), (Hs H4), (Hq2 H5).
  apply find_known in Hfind as [Hl _].
  destruct current. simpl in *. split; [done |]. by rewrite list_insert_id.
Qed.

(** C3. An update of a stored task whose body has no valid field but
    whose [dueDate] is an object carrying a [toString] key: the invalid
    date is not dropped, [new Date] throws, and the request is answered
    500 instead of succeeding with the unchanged record.  A body whose
    only field is a priority outside the enumeration is answered 200
    with the unchanged record. *)
Theorem patch_unconvertible_date_answers_500
    (parseDate : JVal → option Z) (Db : Type)
    (Task_findByIdAndUpdate : jsstring → Update → Db → Settled (option Doc) * Db)
    (d0 : Db) :
  let task := mkTask (u16 "1") (u16 "a") [] (u16 "low") (u16 "todo") None 1 in
  let st := mkState [task] d0 in
  let body0 : gmap jsstring JVal :=
    {[ u16 "dueDate" := JObj [(u16 "toString", JNum (num_of_Z 1))] ]} in
  list_find (λ t, id t = u16 "1") (inMemoryTasks st) = Some (0%nat, task)
  ∧ ¬ validDate parseDate (prop body0 "dueDate")
  ∧ patch_task false parseDate Db Task_findByIdAndUpdate (u16 "1") body0 st
    = (mkResponse 500 (BError "Failed to update task"), st)
  ∧ patch_task false parseDate Db Task_findByIdAndUpdate (u16 "1")
      {[ u16 "priority" := JStr (u16 "urgent") ]} st
    = (mkResponse 200 (BTask task), st).
Proof.
  intros task st body0.
  split; [vm_compute; reflexivity |]. split.
  - intros (_ & Hthrows & _). vm_compute in Hthrows. discriminate.
  - split; vm_compute; reflexivity.
Qed.

(** ** Grouped-by-status view *)

Section Grouping.

Import Board.

Let isTodo (task : Task) : Prop := status task = u16 "todo".
Let isInProgress (task : Task) : Prop := status task = u16 "in-progress".
Let isDone (task : Task) : Prop := status task = u16 "done".

Lemma allowedStatus_cases (s : jsstring) :
  s ∈ allowedStatus ↔ s = u16 "todo" ∨ s = u16 "in-progress" ∨ s = u16 "done".
Proof.
  unfold allowedStatus. simpl map.
  rewrite !elem_of_cons, elem_of_nil. tauto.
Qed.

(** The loop appends each task to the bucket of its status. *)
Lemma groupLoop_filter (tasks : list Task) (g : Groups) :
  (∀ task, task ∈ tasks → status task ∈ allowedStatus) →
  groupLoop g tasks
  = Some (mkGroups (todo g ++ filter isTodo tasks)
                   (in_progress g ++ filter isInProgress tasks)
                   (done g ++ filter isDone tasks)).
Proof.
  revert g. induction tasks as [|task rest IH]; intros g Hall.
  - simpl. rewrite !filter_nil, !app_nil_r. by destruct g.
  - assert (Hrest : ∀ t, t ∈ rest → status t ∈ allowedStatus).
    { intros t Ht. apply Hall. by right. }
    assert (Hs : status task ∈ allowedStatus) by (apply Hall; by left).
    apply allowedStatus_cases in Hs.
    simpl. unfold pushTask.
    destruct Hs as [Hs | [Hs | Hs]]; rewrite Hs; simpl;
      rewrite (IH _ Hrest); simpl; f_equal;
      unfold isTodo, isInProgress, isDone;
      rewrite !filter_cons, Hs; simpl;
      by rewrite <- app_assoc.
Qed.

Lemma filter_status_partition (tasks : list Task) :
  (∀ task, task ∈ tasks → status task ∈ allowedStatus) →
  tasks ≡ₚ filter isTodo tasks ++ filter isInProgress tasks ++ filter isDone tasks.
Proof.
  induction tasks as [|task rest IH]; intros Hall; [done |].
  assert (Hrest : ∀ t, t ∈ rest → status t ∈ allowedStatus).
  { intros t Ht. apply Hall. by right. }
  assert (Hs : status task ∈ allowedStatus) by (apply Hall; by left).
  apply allowedStatus_cases in Hs. specialize (IH Hrest).
  unfold isTodo, isInProgress, isDone in *.
  destruct Hs as [Hs | [Hs | Hs]]; rewrite !filter_cons, Hs; simpl.
  - by constructor.
  - rewrite <- Permutation_middle. by constructor.
  - rewrite app_assoc, <- Permutation_middle, <- app_assoc. by constructor.
Qed.

(** C9. For a collection whose statuses are the enumerated ones, the
    grouped view is computed, each bucket holds the tasks of its
    status in the order of the collection, the buckets together are a
    rearrangement of the collection, and a task is in a bucket exactly
    when the bucket is the one of its status. *)
Theorem groupedTasks_partition (tasks : list Task) :
  (∀ task, task ∈ tasks → status task ∈ allowedStatus) →
  ∃ groups,
    groupedTasks tasks = Some groups
    ∧ todo groups = filter (λ task, status task = u16 "todo") tasks
    ∧ in_progress groups = filter (λ task, status task = u16 "in-progress") tasks
    ∧ done groups = filter (λ task, status task = u16 "done") tasks
    ∧ tasks ≡ₚ todo groups ++ in_progress groups ++ done groups
    ∧ (todo groups `sublist_of` tasks
       ∧ in_progress groups `sublist_of` tasks
       ∧ done groups `sublist_of` tasks)
    ∧ ∀ task, task ∈ tasks →
        (task ∈ todo groups ↔ status task = u16 "todo")
        ∧ (task ∈ in_progress groups ↔ status task = u16 "in-progress")
        ∧ (task ∈ done groups ↔ status task = u16 "done").
Proof.
  intros Hall. eexists. split.
  { unfold groupedTasks. by rewrite (groupLoop_filter _ _ Hall). }
  cbn [todo in_progress done app].
  split; [reflexivity |]. split; [reflexivity |]. split; [reflexivity |].
  split; [by apply filter_status_partition |].
  split; [repeat split; apply sublist_filter |].
  intros task Hin. rewrite !list_elem_of_filter. tauto.
Qed.

End Grouping.

Lemma groupedTasks_partition_witness :
  let t1 := mkTask (u16 "1") (u16 "a") [] (u16 "low") (u16 "done") None 1 in
  let t2 := mkTask (u16 "2") (u16 "b") [] (u16 "low") (u16 "todo") None 2 in
  (∀ task, task ∈ [t1; t2] → status task ∈ allowedStatus)
  ∧ Board.groupedTasks [t1; t2] = Some (Board.mkGroups [t2] [] [t1]).
Proof.
  intros t1 t2.
  assert (H : ∀ task, task ∈ [t1; t2] → status task ∈ allowedStatus).
  { intros task Hin. apply list_elem_of_In in Hin.
    destruct Hin as [<- | [<- | []]];
      apply (bool_decide_unpack _); vm_compute; exact I. }
  split; [exact H |].
  destruct (groupedTasks_partition [t1; t2] H)
    as ([a b c] & E & Ha & Hb & Hc & _).
  rewrite E. simpl in Ha, Hb, Hc. rewrite Ha, Hb, Hc.
  vm_compute. reflexivity.
Defined.

(** A status that is not a bucket is skipped, unless it names a
    property every object inherits: then the loop throws. *)
Example groupedTasks_other_status :
  let t (s : string) := mkTask [] [] [] [] (u16 s) None 0 in
  Board.groupedTasks [t "done"; t "archived"]
    = Some (Board.mkGroups [] [] [t "done"])
  ∧ Board.groupedTasks [t "done"; t "constructor"] = None.
Proof. split; vm_compute; reflexivity. Qed.

(** ** Listing *)

Section Runs.

Variable parseDate : JVal → option Z.
Variable Db : Type.
Variable Task_find : Filter → Db → Settled (list Doc).
Variable Task_create : Payload → Db → Settled Doc * Db.
Variable Task_findByIdAndUpdate : jsstring → Update → Db → Settled (option Doc) * Db.
Variable Task_findByIdAndDelete : jsstring → Db → Settled (option Doc) * Db.

Let serve : Request → State Db → Response * State Db :=
  handle false parseDate Db Task_find Task_create Task_findByIdAndUpdate
    Task_findByIdAndDelete.
Let runMemory : list Request → State Db → State Db :=
  run false parseDate Db Task_find Task_create Task_findByIdAndUpdate
    Task_findByIdAndDelete.

(** The creation times of the stored tasks, in array order. *)
Let times (st : State Db) : list Z := createdAt <$> inMemoryTasks st.

(** One request either leaves the creation times as they are, drops
    one of them, or puts the reading [now] of a create in front. *)
Lemma serve_times (r : Request) (st : State Db) :
  times (serve r st).2 `sublist_of` times st
  ∨ ∃ now dateNow body0,
      r = Post now dateNow body0 ∧ times (serve r st).2 = now :: times st.
Proof.
  unfold times, serve. destruct r as [s p | now dateNow body0 | id0 body0 | id0]; simpl.
  - left. unfold get_tasks. by simpl.
  - unfold post_tasks. destruct (titleRejected _); simpl; [by left |].
    destruct (createPayload _ _ _); simpl; [| by left].
    right. by exists now, dateNow, body0.
  - left. unfold patch_task. destruct (patchUpdate _ _); simpl; [| done].
    destruct (list_find _ _) as [[index current]|] eqn:E; simpl; [| done].
    apply find_known in E as [E _].
    rewrite list_fmap_insert. simpl.
    rewrite list_insert_id; [done |].
    by rewrite list_lookup_fmap, E.
  - left. unfold delete_task. simpl.
    destruct (list_find _ _) as [[index current]|]; simpl; [| done].
    apply fmap_sublist, sublist_delete.
Qed.

Lemma readings_tail (r : Request) (rs : list Request) :
  clockReadings rs `sublist_of` clockReadings (r :: rs).
Proof. destruct r; simpl; repeat constructor; done. Qed.

Lemma StronglySorted_sublist {A : Type} (R : relation A) (l1 l2 : list A) :
  l1 `sublist_of` l2 → StronglySorted R l2 → StronglySorted R l1.
Proof.
  induction 1 as [|x l1 l2 Hsub IH|x l1 l2 Hsub IH]; intros Hs.
  - constructor.
  - apply StronglySorted_inv in Hs as [Hs Hx]. constructor; [by apply IH |].
    apply Forall_forall. intros y Hy.
    apply (proj1 (Forall_forall _ _) Hx). by eapply elem_of_sublist.
  - apply StronglySorted_inv in Hs as [Hs _]. by apply IH.
Qed.

(** With a clock that does not run backwards, serving requests keeps
    the array ordered by creation time, newest first. *)
Lemma run_times_sorted (rs : list Request) (st : State Db) :
  StronglySorted Z.le (clockReadings rs) →
  StronglySorted (λ a b, (b ≤ a)%Z) (times st) →
  (∀ x c, x ∈ times st → c ∈ clockReadings rs → (x ≤ c)%Z) →
  StronglySorted (λ a b, (b ≤ a)%Z) (times (runMemory rs st)).
Proof.
  revert st. induction rs as [|r rs IH]; intros st Hclock Hsorted Hbound;
    [exact Hsorted |].
  simpl. apply IH.
  - eapply StronglySorted_sublist; [apply readings_tail | exact Hclock].
  - destruct (serve_times r st) as [Hsub | (now & dateNow & body0 & -> & E)].
    + by eapply StronglySorted_sublist.
    + fold serve. rewrite E. constructor; [done |].
      apply Forall_forall. intros x Hx. apply Hbound; [done |]. by left.
  - intros x c Hx Hc.
    destruct (serve_times r st) as [Hsub | (now & dateNow & body0 & -> & E)].
    + apply Hbound; [by eapply elem_of_sublist |].
      eapply elem_of_sublist; [exact Hc | apply readings_tail].
    + fold serve in Hx. rewrite E in Hx. simpl in Hclock.
      apply elem_of_cons in Hx as [-> | Hx].
      * apply StronglySorted_inv in Hclock as [_ Hnow].
        apply (proj1 (Forall_forall _ _) Hnow). by right.
      * apply Hbound; [done |]. simpl. by do 2 right.
Qed.

Lemma newestFirst_times (tasks : list Task) :
  StronglySorted (λ a b, (b ≤ a)%Z) (createdAt <$> tasks) → newestFirst tasks.
Proof.
  unfold newestFirst. induction tasks as [|task tasks IH]; simpl; intros H;
    [constructor |].
  apply StronglySorted_inv in H as [H Hx]. constructor; [by apply IH |].
  apply Forall_forall. intros y Hy.
  apply (proj1 (Forall_forall _ _) Hx). by apply list_elem_of_fmap_2.
Qed.

(** In the in-memory mode, after any run of requests served under a
    clock that does not run backwards, a list call answers 200 with
    exactly the stored tasks that match the filter: a task is listed
    exactly when it is stored and has the supplied status and the
    supplied priority (both when both are supplied, and every task
    when neither is), nothing is listed twice or out of the array's
    order, and the listing is ordered by [createdAt], newest first. *)
Lemma list_memory_monotone_clock
    (rs : list Request) (d0 : Db) (status0 priority0 : JVal) :
  monotoneClock rs →
  let st :=
    run false parseDate Db Task_find Task_create Task_findByIdAndUpdate
      Task_findByIdAndDelete rs (mkState [] d0) in
  ∃ tasks,
    get_tasks false Db Task_find status0 priority0 st
    = (mkResponse 200 (BTasks tasks), st)
    ∧ (∀ task, task ∈ tasks ↔
         task ∈ inMemoryTasks st ∧ matchesFilter status0 priority0 task)
    ∧ (¬ supplied status0 → ¬ supplied priority0 → tasks = inMemoryTasks st)
    ∧ tasks `sublist_of` inMemoryTasks st
    ∧ newestFirst tasks.
Proof.
  intros Hclock st.
  destruct (get_tasks_memory Db Task_find status0 priority0 st)
    as (tasks & E & Hsub & Hin).
  exists tasks. split; [exact E |]. split; [exact Hin |].
  split; [| split; [exact Hsub |]].
  - unfold supplied. intros Hs Hp.
    apply not_true_is_false in Hs, Hp.
    unfold get_tasks in E. simpl in E. rewrite Hs, Hp in E. congruence.
  - eapply StronglySorted_sublist; [exact Hsub |].
    apply newestFirst_times. subst st.
    apply (run_times_sorted rs (mkState [] d0)); [exact Hclock | constructor |].
    intros x c Hx. by apply elem_of_nil in Hx.
Qed.

End Runs.

(** C6. The in-memory branch of the list handler returns the array as
    it is, newest insertion first, and never sorts it: when the clock
    is set back between two creates, the listing is not in descending
    order of [createdAt].  The database branch answers with what
    [Task.find(filter).sort({ createdAt: -1 })] returns for the filter
    of the supplied values. *)
Theorem list_memory_not_sorted
    (parseDate : JVal → option Z) (Db : Type)
    (Task_find : Filter → Db → Settled (list Doc))
    (Task_create : Payload → Db → Settled Doc * Db)
    (Task_findByIdAndUpdate : jsstring → Update → Db → Settled (option Doc) * Db)
    (Task_findByIdAndDelete : jsstring → Db → Settled (option Doc) * Db)
    (d0 : Db) :
  let rs :=
    [Post 10 10 {[ u16 "title" := JStr (u16 "a") ]};
     Post 5 5 {[ u16 "title" := JStr (u16 "b") ]}] in
  let st :=
    run false parseDate Db Task_find Task_create Task_findByIdAndUpdate
      Task_findByIdAndDelete rs (mkState [] d0) in
  let listed :=
    [mkTask (u16 "5") (u16 "b") [] (u16 "medium") (u16 "todo") None 5;
     mkTask (u16 "10") (u16 "a") [] (u16 "medium") (u16 "todo") None 10] in
  get_tasks false Db Task_find JUndefined JUndefined st
  = (mkResponse 200 (BTasks listed), st)
  ∧ ¬ newestFirst listed
  ∧ ∀ (status0 priority0 : JVal) (st' : State Db),
      get_tasks true Db Task_find status0 priority0 st'
      = match Task_find
                {| flt_status := if truthy status0 then Some status0 else None;
                   flt_priority := if truthy priority0 then Some priority0
                                   else None |} (db st') with
        | Fulfilled docs => (mkResponse 200 (BDocs (toJson <$> docs)), st')
        | Rejected => (mkResponse 500 (BError "Failed to load tasks"), st')
        end.
Proof.
  intros rs st listed. split; [vm_compute; reflexivity |]. split.
  - unfold newestFirst. intros H. apply StronglySorted_inv in H as [_ H].
    apply Forall_inv in H. simpl in H. lia.
  - intros status0 priority0 st'. unfold get_tasks. cbn [negb].
    by destruct (Task_find _ _).
Qed.

(** ** Identifiers of the in-memory mode *)



Section Identifiers.

Variable parseDate : JVal → option Z.
Variable Db : Type.
Variable Task_find : Filter → Db → Settled (list Doc).
Variable Task_create : Payload → Db → Settled Doc * Db.
Variable Task_findByIdAndUpdate : jsstring → Update → Db → Settled (option Doc) * Db.
Variable Task_findByIdAndDelete : jsstring → Db → Settled (option Doc) * Db.

Let serve : Request → State Db → Response * State Db :=
  handle false parseDate Db Task_find Task_create Task_findByIdAndUpdate
    Task_findByIdAndDelete.
Let runMemory : list Request → State Db → State Db :=
  run false parseDate Db Task_find Task_create Task_findByIdAndUpdate
    Task_findByIdAndDelete.





End Identifiers.

(** C4. Two create requests served within the same millisecond: both
    are accepted, and the two stored tasks carry the same id. *)
Theorem post_same_millisecond_same_id
    (parseDate : JVal → option Z) (Db : Type)
    (Task_find : Filter → Db → Settled (list Doc))
    (Task_create : Payload → Db → Settled Doc * Db)
    (Task_findByIdAndUpdate : jsstring → Update → Db → Settled (option Doc) * Db)
    (Task_findByIdAndDelete : jsstring → Db → Settled (option Doc) * Db)
    (d0 : Db) :
  let rs :=
    [Post 1700000000000 1700000000000 {[ u16 "title" := JStr (u16 "a") ]};
     Post 1700000000000 1700000000000 {[ u16 "title" := JStr (u16 "b") ]}] in
  let st :=
    run false parseDate Db Task_find Task_create Task_findByIdAndUpdate
      Task_findByIdAndDelete rs (mkState [] d0) in
  monotoneClock rs
  ∧ (id <$> inMemoryTasks st) = [u16 "1700000000000"; u16 "1700000000000"]
  ∧ (title <$> inMemoryTasks st) = [u16 "b"; u16 "a"]
  ∧ ¬ NoDup (id <$> inMemoryTasks st).
Proof.
  intros rs st.
  assert (Hids : (id <$> inMemoryTasks st) = [u16 "1700000000000"; u16 "1700000000000"]).
  { vm_compute. reflexivity. }
  split; [apply (bool_decide_unpack _); vm_compute; exact I |].
  split; [exact Hids |].
  split; [vm_compute; reflexivity |].
  rewrite Hids. intros H. apply NoDup_cons in H as [H _]. apply H. by left.
Qed.

(** ** Titles after an update *)

(** C1. An update whose title is the empty string, or is made of white
    space only, is accepted, and the stored task is left with the empty
    title. *)
Theorem patch_blank_title_stored
    (parseDate : JVal → option Z) (Db : Type)
    (Task_create : Payload → Db → Settled Doc * Db)
    (Task_findByIdAndUpdate : jsstring → Update → Db → Settled (option Doc) * Db)
    (d0 : Db) :
  let created :=
    post_tasks false parseDate Db Task_create 1000 1000
      {[ u16 "title" := JStr (u16 "a") ]} (mkState [] d0) in
  let emptied := mkTask (u16 "1000") [] [] (u16 "medium") (u16 "todo") None 1000 in
  code created.1 = 201%nat
  ∧ (title <$> inMemoryTasks created.2) = [u16 "a"]
  ∧ patch_task false parseDate Db Task_findByIdAndUpdate (u16 "1000")
      {[ u16 "title" := JStr (u16 "") ]} created.2
    = (mkResponse 200 (BTask emptied), mkState [emptied] d0)
  ∧ patch_task false parseDate Db Task_findByIdAndUpdate (u16 "1000")
      {[ u16 "title" := JStr (u16 "   ") ]} created.2
    = (mkResponse 200 (BTask emptied), mkState [emptied] d0)
  ∧ blank (title emptied).
Proof.
  intros created emptied.
  repeat split; try (vm_compute; reflexivity). constructor.
Qed.

(** ** Defaults at creation *)

Section Defaults.

Variable parseDate : JVal → option Z.

Lemma createPayload_titleOnly (s : jsstring) (body0 : gmap jsstring JVal) :
  titleOnly body0 →
  createPayload parseDate s body0
  = Returned (mkPayload (trim s) None None None None).
Proof.
  intros (_ & Hd & Hp & Hs & Hq). unfold createPayload, dueDateField, prop.
  by rewrite Hd, Hp, Hs, Hq.
Qed.

(** In the in-memory mode a create request with only a title yields
    the record with the four defaults. *)
Lemma post_title_only_memory (Db : Type)
    (Task_create : Payload → Db → Settled Doc * Db)
    (now dateNow : Z) (body0 : gmap jsstring JVal) (st : State Db) :
  titleOnly body0 →
  ∃ task,
    post_tasks false parseDate Db Task_create now dateNow body0 st
    = (mkResponse 201 (BTask task), mkState (task :: inMemoryTasks st) (db st))
    ∧ priority task = u16 "medium" ∧ status task = u16 "todo"
    ∧ description task = u16 "" ∧ dueDate task = None.
Proof.
  intros H. pose proof H as (Ht & _).
  rewrite <- titleRejected_spec in Ht. apply not_true_is_false in Ht.
  unfold post_tasks. rewrite Ht, (createPayload_titleOnly _ _ H). cbn beta iota zeta.
  eexists. split; [reflexivity |]. by simpl.
Qed.

(** In the database mode the document gets the two defaults the
    schema declares; [description] and [dueDate] have none, so the
    response leaves them [undefined]. *)
Lemma post_title_only_database (oid : jsstring) (ts now dateNow : Z)
    (body0 : gmap jsstring JVal) (st : State (list Doc)) :
  titleOnly body0 →
  ∃ task,
    (post_tasks true parseDate (list Doc) (Mongoose.create oid ts)
       now dateNow body0 st).1
    = mkResponse 201 (BDoc task)
    ∧ j_priority task = Some (u16 "medium") ∧ j_status task = Some (u16 "todo")
    ∧ j_description task = None ∧ j_dueDate task = None.
Proof.
  intros H. pose proof H as (Ht & _).
  rewrite <- titleRejected_spec in Ht. apply not_true_is_false in Ht.
  unfold post_tasks. rewrite Ht, (createPayload_titleOnly _ _ H). cbn beta iota zeta.
  unfold prop in *.
  destruct (body0 !! u16 "title") as [v|] eqn:E; simpl in Ht |- *;
    [| discriminate].
  destruct (isString v) eqn:Hv;
    [| by rewrite (titleRejected_other v Hv) in Ht].
  destruct v as [| |b|x|s|l|l]; try discriminate. simpl.
  assert (Hs : trim s ≠ []).
  { intros Hs. apply titleRejected_string in Hs. congruence. }
  assert (Hs' : trim (trim s) ≠ []).
  { rewrite trim_nil. by apply trim_not_blank. }
  unfold Mongoose.create. simpl.
  rewrite (bool_decide_eq_false_2 _ Hs'). simpl.
  eexists. split; [reflexivity |]. by simpl.
Qed.

End Defaults.

(** C2. A create request with only a title, in the two storage modes:
    the in-memory record has [description] empty and [dueDate] null;
    the database-backed response has [priority] and [status] set and
    neither a [description] nor a [dueDate]. *)
Theorem post_title_only_modes
    (parseDate : JVal → option Z) (Db : Type)
    (Task_create : Payload → Db → Settled Doc * Db) (d0 : Db) :
  let body0 : gmap jsstring JVal := {[ u16 "title" := JStr (u16 "Buy milk") ]} in
  (post_tasks false parseDate Db Task_create 1000 1000 body0 (mkState [] d0)).1
  = mkResponse 201
      (BTask {| id := u16 "1000"; title := u16 "Buy milk"; description := u16 "";
                priority := u16 "medium"; status := u16 "todo";
                dueDate := None; createdAt := 1000 |})
  ∧ (post_tasks true parseDate (list Doc) (Mongoose.create (u16 "65f0c0ffee") 1000)
       1000 1000 body0 (mkState [] [])).1
    = mkResponse 201
        (BDoc {| j_id := u16 "65f0c0ffee"; j_title := Some (u16 "Buy milk");
                 j_description := None;
                 j_priority := Some (u16 "medium"); j_status := Some (u16 "todo");
                 j_dueDate := None; j_createdAt := 1000 |}).
Proof. split; vm_compute; reflexivity. Qed.

(** ** Completion rate *)

Lemma completionRate_empty : Board.completionRate [] = 0%Z.
Proof. reflexivity. Qed.

Example completionRate_2_of_4 :
  let t (s : string) := mkTask [] [] [] [] (u16 s) None 0 in
  Board.completionRate [t "done"; t "todo"; t "done"; t "in-progress"] = 50%Z
  ∧ roundedPercent 2 4 = 50%Z.
Proof. split; vm_compute; reflexivity. Qed.

Lemma doneCount_le_length (tasks : list Task) :
  (Board.doneCount tasks ≤ length tasks)%nat.
Proof. unfold Board.doneCount. apply length_filter. Qed.

(** Below 40 tasks the computed rate is the exactly rounded one. *)
Lemma completionRate_below_40 (tasks : list Task) :
  (length tasks < 40)%nat →
  Board.completionRate tasks
  = roundedPercent (Board.doneCount tasks) (length tasks).
Proof.
  intros Hlen. pose proof (doneCount_le_length tasks) as Hle.
  unfold Board.completionRate, roundedPercent.
  generalize dependent (Board.doneCount tasks).
  generalize dependent (length tasks). clear tasks.
  intros n Hn d Hd.
  assert (Hall : forallb (λ n,
            forallb (λ d,
              bool_decide
                ((if bool_decide (n = 0%nat) then 0%Z
                  else Math_round
                         (num_mul (num_div (num_of_Z (Z.of_nat d))
                                           (num_of_Z (Z.of_nat n)))
                                  (num_of_Z 100)))
                 = (if bool_decide (n = 0%nat) then 0%Z
                    else ((200 * Z.of_nat d + Z.of_nat n) / (2 * Z.of_nat n))%Z)))
              (seq 0 (S n)))
            (seq 0 40) = true) by (vm_compute; reflexivity).
  rewrite forallb_forall in Hall.
  assert (Hn' : In n (seq 0 40)) by (apply in_seq; lia).
  assert (Hd' : In d (seq 0 (S n))) by (apply in_seq; lia).
  pose proof (Hall n Hn') as Hrow. rewrite forallb_forall in Hrow.
  pose proof (Hrow d Hd') as Hcell.
  by apply bool_decide_eq_true_1 in Hcell.
Qed.

(** C8. 23 tasks done out of 40: the exact percentage is 57.5, which
    rounds to 58; the quotient 23/40 is not a binary64 number, its
    product with 100 falls just below 57.5, and the computed rate is
    57. *)
Theorem completionRate_23_of_40 :
  let t (s : string) := mkTask [] [] [] [] (u16 s) None 0 in
  let tasks := replicate 23 (t "done") ++ replicate 17 (t "todo") in
  length tasks = 40%nat
  ∧ Board.doneCount tasks = 23%nat
  ∧ num_mul (num_div (num_of_Z 23) (num_of_Z 40)) (num_of_Z 100)
    = S754_finite false 8092405580431359 (-47)
  ∧ Board.completionRate tasks = 57%Z
  ∧ roundedPercent 23 40 = 58%Z.
Proof. repeat split; vm_compute; reflexivity. Qed.

(** * Further properties of the handlers *)

(** ** Trimmed text *)

Lemma trimStart_split (s : jsstring) :
  ∃ w, s = w ++ trimStart s ∧ blank w.
Proof.
  induction s as [|c s (w & E & Hw)]; simpl.
  - exists []. split; [done | constructor].
  - destruct (isWhiteSpace c) eqn:Hc.
    + exists (c :: w). split; [by rewrite E at 1 | by constructor].
    + exists []. split; [done | constructor].
Qed.

Lemma trimStart_fixed (s : jsstring) :
  (∀ c r, s = c :: r → isWhiteSpace c = false) → trimStart s = s.
Proof.
  destruct s as [|c r]; [done |]. intros H. simpl.
  by rewrite (H c r eq_refl).
Qed.

Lemma trimStart_idemp (s : jsstring) : trimStart (trimStart s) = trimStart s.
Proof. apply trimStart_fixed. intros c r. apply trimStart_head. Qed.

Lemma trimEnd_split (s : jsstring) :
  ∃ w, s = trimEnd s ++ w ∧ blank w.
Proof.
  unfold trimEnd. destruct (trimStart_split (rev s)) as (w & E & Hw).
  exists (rev w). split; [| by apply blank_rev].
  rewrite <- rev_app_distr, <- E. by rewrite rev_involutive.
Qed.

(** Trimming the end keeps the first code unit of a string that starts
    with something else than white space. *)
Lemma trimEnd_head (s : jsstring) :
  (∀ c r, s = c :: r → isWhiteSpace c = false) →
  ∀ c r, trimEnd s = c :: r → isWhiteSpace c = false.
Proof.
  intros Hs c r E. destruct (trimEnd_split s) as (w & Es & Hw).
  rewrite E in Es. simpl in Es. by apply (Hs c (r ++ w)).
Qed.

Lemma trimEnd_idemp (s : jsstring) : trimEnd (trimEnd s) = trimEnd s.
Proof. unfold trimEnd. by rewrite rev_involutive, trimStart_idemp. Qed.

(** Trimming is idempotent, and what it returns neither starts nor
    ends with white space. *)
Lemma trim_idemp (s : jsstring) :
  trim (trim s) = trim s
  ∧ (∀ c r, trim s = c :: r → isWhiteSpace c = false)
  ∧ (∀ c r, trim s = r ++ [c] → isWhiteSpace c = false).
Proof.
  assert (Hhead : ∀ c r, trim s = c :: r → isWhiteSpace c = false).
  { unfold trim. apply trimEnd_head. intros c r. apply trimStart_head. }
  split; [| split; [exact Hhead |]].
  - unfold trim at 1. rewrite (trimStart_fixed _ Hhead).
    unfold trim. apply trimEnd_idemp.
  - intros c r E. unfold trim, trimEnd in E.
    apply (f_equal (@rev N)) in E. rewrite rev_involutive, rev_app_distr in E.
    simpl in E. by apply trimStart_head in E.
Qed.

(** ** What every stored task satisfies *)

Section Invariants.

Variable parseDate : JVal → option Z.
Variable Db : Type.
Variable Task_find : Filter → Db → Settled (list Doc).
Variable Task_create : Payload → Db → Settled Doc * Db.
Variable Task_findByIdAndUpdate : jsstring → Update → Db → Settled (option Doc) * Db.
Variable Task_findByIdAndDelete : jsstring → Db → Settled (option Doc) * Db.

Let serve : Request → State Db → Response * State Db :=
  handle false parseDate Db Task_find Task_create Task_findByIdAndUpdate
    Task_findByIdAndDelete.
Let runMemory : list Request → State Db → State Db :=
  run false parseDate Db Task_find Task_create Task_findByIdAndUpdate
    Task_findByIdAndDelete.

(** The payload of the create handler and the update of the patch
    handler hold sanitised values only. *)
Lemma createPayload_sane (s : jsstring) (body0 : gmap jsstring JVal)
    (payload : Payload) :
  createPayload parseDate s body0 = Returned payload →
  p_title payload = trim s
  ∧ (∀ d, p_description payload = Some d → trim d = d)
  ∧ (∀ p, p_priority payload = Some p → p ∈ allowedPriority)
  ∧ (∀ p, p_status payload = Some p → p ∈ allowedStatus).
Proof.
  intros E.
  destruct (createPayload_spec parseDate s body0)
    as [[_ E'] | (_ & parsed & E' & _)]; rewrite E' in E; [discriminate |].
  injection E as <-. cbn [p_title p_description p_priority p_status].
  rewrite (enum_guard _ _ allowedPriority_nonempty).
  rewrite (enum_guard _ _ allowedStatus_nonempty).
  split; [done |]. split; [| split].
  - intros d. destruct (prop body0 "description") as [| |b|x|s'|l|l]; simpl;
      rewrite ?andb_false_r; try discriminate.
    destruct (negb _); simpl; [| discriminate].
    intros [= <-]. apply trim_idemp.
  - intros p. destruct (prop body0 "priority") as [| |b|x|s'|l|l]; try discriminate.
    case_decide; [| discriminate]. by intros [= <-].
  - intros p. destruct (prop body0 "status") as [| |b|x|s'|l|l]; try discriminate.
    case_decide; [| discriminate]. by intros [= <-].
Qed.

Lemma patchUpdate_sane (body0 : gmap jsstring JVal) (update : Update) :
  patchUpdate parseDate body0 = Returned update →
  (∀ t, u_title update = Some t → trim t = t)
  ∧ (∀ d, u_description update = Some d → trim d = d)
  ∧ (∀ p, u_priority update = Some p → p ∈ allowedPriority)
  ∧ (∀ p, u_status update = Some p → p ∈ allowedStatus).
Proof.
  intros E.
  destruct (patchUpdate_spec parseDate body0)
    as [[_ E'] | (_ & parsed & E' & _)]; rewrite E' in E; [discriminate |].
  injection E as <-. cbn [u_title u_description u_priority u_status].
  rewrite !string_guard.
  rewrite (enum_guard _ _ allowedPriority_nonempty).
  rewrite (enum_guard _ _ allowedStatus_nonempty).
  split; [| split; [| split]].
  - intros t. destruct (prop body0 "title"); try discriminate.
    intros [= <-]. apply trim_idemp.
  - intros d. destruct (prop body0 "description"); try discriminate.
    intros [= <-]. apply trim_idemp.
  - intros p. destruct (prop body0 "priority") as [| |b|x|s'|l|l]; try discriminate.
    case_decide; [| discriminate]. by intros [= <-].
  - intros p. destruct (prop body0 "status") as [| |b|x|s'|l|l]; try discriminate.
    case_decide; [| discriminate]. by intros [= <-].
Qed.

Lemma orString_cases (v : option jsstring) (d : jsstring) :
  orString v d = d ∨ v = Some (orString v d).
Proof.
  unfold orString. destruct v as [s|]; [| by left].
  destruct (truthy (JStr s)); [by right | by left].
Qed.

(** A property of tasks that the created record has and that an update
    keeps is had by every task of the array after every run. *)
Lemma run_Forall (P : Task → Prop) :
  (∀ (now dateNow : Z) s body0 payload,
     createPayload parseDate s body0 = Returned payload →
     P {| id := u16 (pretty dateNow);
          title := p_title payload;
          description := orString (p_description payload) (u16 "");
          priority := orString (p_priority payload) (u16 "medium");
          status := orString (p_status payload) (u16 "todo");
          dueDate := p_dueDate payload;
          createdAt := now |}) →
  (∀ current body0 update,
     patchUpdate parseDate body0 = Returned update →
     P current → P (spread current update)) →
  ∀ rs st, Forall P (inMemoryTasks st) → Forall P (inMemoryTasks (runMemory rs st)).
Proof.
  intros Hpost Hpatch rs. induction rs as [|r rs IH]; intros st Hst; [done |].
  simpl. apply IH. clear IH.
  destruct r as [s p | now dateNow body0 | id0 body0 | id0]; simpl.
  - unfold get_tasks. by simpl.
  - unfold post_tasks. destruct (titleRejected _); simpl; [done |].
    destruct (createPayload _ _ _) as [payload|] eqn:E; simpl; [| done].
    constructor; [by eapply Hpost | done].
  - unfold patch_task.
    destruct (patchUpdate _ _) as [update|] eqn:Eu; simpl; [| done].
    destruct (list_find _ _) as [[index current]|] eqn:E; simpl; [| done].
    apply find_known in E as [E _].
    apply Forall_insert; [done |]. apply (Hpatch _ _ _ Eu).
    apply (proj1 (Forall_forall _ _) Hst). by eapply list_elem_of_lookup_2.
  - unfold delete_task. simpl.
    destruct (list_find _ _) as [[index current]|]; simpl; [| done].
    by apply Forall_delete.
Qed.

(** X1. In the in-memory mode every stored task has a priority and a
    status of the enumerations, after any run of requests, whatever
    the bodies held. *)
Theorem run_enumerated (rs : list Request) (d0 : Db) :
  Forall (λ task, priority task ∈ allowedPriority ∧ status task ∈ allowedStatus)
    (inMemoryTasks
       (run false parseDate Db Task_find Task_create Task_findByIdAndUpdate
          Task_findByIdAndDelete rs (mkState [] d0))).
Proof.
  apply (run_Forall _); [| | constructor].
  - intros now dateNow s body0 payload E. cbn [priority status].
    destruct (createPayload_sane s body0 payload E) as (_ & _ & Hp & Hs).
    split.
    + destruct (orString_cases (p_priority payload) (u16 "medium"))
        as [-> | E']; [| by apply Hp].
      apply (bool_decide_unpack _). vm_compute. exact I.
    + destruct (orString_cases (p_status payload) (u16 "todo"))
        as [-> | E']; [| by apply Hs].
      apply (bool_decide_unpack _). vm_compute. exact I.
  - intros current body0 update E [Hp Hs].
    destruct (patchUpdate_sane body0 update E) as (_ & _ & Hp' & Hs').
    unfold spread. cbn [priority status]. split.
    + destruct (u_priority _) as [p|] eqn:E'; simpl; [by apply Hp' | done].
    + destruct (u_status _) as [p|] eqn:E'; simpl; [by apply Hs' | done].
Qed.

(** X2. In the in-memory mode every stored title and every stored
    description is trimmed, after any run of requests: neither starts
    or ends with white space. *)
Theorem run_trimmed (rs : list Request) (d0 : Db) :
  Forall (λ task, trim (title task) = title task
                  ∧ trim (description task) = description task)
    (inMemoryTasks
       (run false parseDate Db Task_find Task_create Task_findByIdAndUpdate
          Task_findByIdAndDelete rs (mkState [] d0))).
Proof.
  apply (run_Forall _); [| | constructor].
  - intros now dateNow s body0 payload E. cbn [title description].
    destruct (createPayload_sane s body0 payload E) as (Ht & Hd & _ & _).
    split; [rewrite Ht; apply trim_idemp |].
    destruct (orString_cases (p_description payload) (u16 ""))
      as [-> | E']; [done | by apply Hd].
  - intros current body0 update E [Ht Hd].
    destruct (patchUpdate_sane body0 update E) as (Ht' & Hd' & _ & _).
    unfold spread. cbn [title description]. split.
    + destruct (u_title _) as [t|] eqn:E'; simpl; [by apply Ht' | done].
    + destruct (u_description _) as [d|] eqn:E'; simpl; [by apply Hd' | done].
Qed.

End Invariants.

(** ** Create, update and delete in the in-memory mode *)

Section Memory.

Variable parseDate : JVal → option Z.
Variable Db : Type.
Variable Task_find : Filter → Db → Settled (list Doc).
Variable Task_create : Payload → Db → Settled Doc * Db.
Variable Task_findByIdAndUpdate : jsstring → Update → Db → Settled (option Doc) * Db.
Variable Task_findByIdAndDelete : jsstring → Db → Settled (option Doc) * Db.

(** A create request with a usable title whose [dueDate] makes
    [new Date] throw is answered 500 in either mode and changes
    nothing. *)
Lemma post_date_throws
    (useDatabase : bool) (now dateNow : Z) (body0 : gmap jsstring JVal)
    (st : State Db) :
  titleRejected (prop body0 "title") = false →
  dateThrows body0 →
  post_tasks useDatabase parseDate Db Task_create now dateNow body0 st
  = (mkResponse 500 (BError "Failed to create task"), st).
Proof.
  intros Hrej H. unfold post_tasks. rewrite Hrej.
  by destruct (createPayload_spec parseDate
                 (default [] (asString (prop body0 "title"))) body0)
    as [[_ ->] | [Hn _]].
Qed.

(** The record an accepted create request makes, field by field. *)
Lemma post_fields_memory
    (now dateNow : Z) (body0 : gmap jsstring JVal) (st : State Db) (s : jsstring) :
  body0 !! u16 "title" = Some (JStr s) →
  trim s ≠ [] →
  ¬ dateThrows body0 →
  ∃ task,
    post_tasks false parseDate Db Task_create now dateNow body0 st
    = (mkResponse 201 (BTask task), mkState (task :: inMemoryTasks st) (db st))
    ∧ id task = u16 (pretty dateNow)
    ∧ createdAt task = now
    ∧ title task = trim s
    ∧ (∀ d, prop body0 "description" = JStr d → description task = trim d)
    ∧ (¬ validString (prop body0 "description") → description task = u16 "")
    ∧ (validPriority (prop body0 "priority") →
         JStr (priority task) = prop body0 "priority")
    ∧ (¬ validPriority (prop body0 "priority") → priority task = u16 "medium")
    ∧ (validStatus (prop body0 "status") →
         JStr (status task) = prop body0 "status")
    ∧ (¬ validStatus (prop body0 "status") → status task = u16 "todo")
    ∧ (validDate parseDate (prop body0 "dueDate") →
         dueDate task = parseDate (prop body0 "dueDate"))
    ∧ (¬ validDate parseDate (prop body0 "dueDate") → dueDate task = None).
Proof.
  intros Ht Hs Hdate.
  assert (Etitle : prop body0 "title" = JStr s).
  { unfold prop. by rewrite Ht. }
  assert (Hrej : titleRejected (JStr s) = false).
  { apply not_true_is_false. by rewrite titleRejected_string. }
  unfold post_tasks. rewrite Etitle, Hrej.
  change (default [] (asString (JStr s))) with s.
  destruct (createPayload_spec parseDate s body0)
    as [[Hthrows _] | (_ & parsed & -> & Hvalid & Hinvalid)]; [done |].
  cbn [negb].
  eexists. split; [reflexivity |].
  cbn [id createdAt title description priority status dueDate
       p_title p_description p_priority p_status p_dueDate].
  rewrite (enum_guard _ _ allowedPriority_nonempty).
  rewrite (enum_guard _ _ allowedStatus_nonempty).
  set (vd := prop body0 "description"). set (vp := prop body0 "priority").
  set (vs := prop body0 "status").
  split; [done |]. split; [done |]. split; [done |].
  split; [| split; [| split; [| split; [| split; [| split; [| split]]]]]].
  - intros d ->. simpl. destruct (decide (d = [])) as [-> | Hd].
    + reflexivity.
    + rewrite (bool_decide_eq_false_2 _ Hd). simpl.
      unfold orString, truthy. destruct (decide (trim d = [])) as [-> | Hd'].
      * reflexivity.
      * by rewrite (bool_decide_eq_false_2 _ Hd').
  - intros H. destruct vd; try (by rewrite ?andb_false_r). destruct H. by eexists.
  - intros (p & -> & Hin). rewrite (decide_True _ _ Hin). simpl.
    assert (Hp : p ≠ []) by (intros ->; by apply allowedPriority_nonempty).
    by rewrite (bool_decide_eq_false_2 _ Hp).
  - intros H. destruct vp as [| |b|x|p|l|l]; try done.
    case_decide; [| done]. destruct H. by exists p.
  - intros (p & -> & Hin). rewrite (decide_True _ _ Hin). simpl.
    assert (Hp : p ≠ []) by (intros ->; by apply allowedStatus_nonempty).
    by rewrite (bool_decide_eq_false_2 _ Hp).
  - intros H. destruct vs as [| |b|x|p|l|l]; try done.
    case_decide; [| done]. destruct H. by exists p.
  - exact Hvalid.
  - exact Hinvalid.
Qed.

(** X3. In the in-memory mode a create request whose title is a string
    that is not blank has one of two answers.  When the body's [dueDate]
    is a truthy value that [new Date] cannot convert to a primitive (an
    object with an own [toString] entry, or an array holding one), the
    [catch] answers 500 "Failed to create task" and the array is left
    as it was.  Otherwise the answer is 201 with the new record, which
    is put in front of the array: its id is the decimal form of
    [Date.now()], its title the trimmed one, its description the trimmed
    one or empty, its priority and status the valid ones of the body or
    "medium" and "todo", its due date the parsed one or null. *)
Theorem post_applies_valid_fields
    (now dateNow : Z) (body0 : gmap jsstring JVal) (st : State Db) (s : jsstring) :
  body0 !! u16 "title" = Some (JStr s) →
  trim s ≠ [] →
  (dateThrows body0 →
   post_tasks false parseDate Db Task_create now dateNow body0 st
   = (mkResponse 500 (BError "Failed to create task"), st))
  ∧ (¬ dateThrows body0 →
     ∃ task,
       post_tasks false parseDate Db Task_create now dateNow body0 st
       = (mkResponse 201 (BTask task),
          mkState (task :: inMemoryTasks st) (db st))
       ∧ id task = u16 (pretty dateNow)
       ∧ createdAt task = now
       ∧ title task = trim s
       ∧ (∀ d, prop body0 "description" = JStr d → description task = trim d)
       ∧ (¬ validString (prop body0 "description") → description task = u16 "")
       ∧ (validPriority (prop body0 "priority") →
            JStr (priority task) = prop body0 "priority")
       ∧ (¬ validPriority (prop body0 "priority") → priority task = u16 "medium")
       ∧ (validStatus (prop body0 "status") →
            JStr (status task) = prop body0 "status")
       ∧ (¬ validStatus (prop body0 "status") → status task = u16 "todo")
       ∧ (validDate parseDate (prop body0 "dueDate") →
            dueDate task = parseDate (prop body0 "dueDate"))
       ∧ (¬ validDate parseDate (prop body0 "dueDate") → dueDate task = None)).
Proof.
  intros Ht Hs. split.
  - apply post_date_throws. unfold prop. rewrite Ht. simpl.
    apply not_true_is_false. by rewrite titleRejected_string.
  - by apply post_fields_memory.
Qed.

(** X4. Round trip: right after an accepted create, the unfiltered
    listing is the created record followed by the listing before, and
    a filtered listing holds the created record exactly when the record
    matches the filter. *)
Theorem post_then_list
    (now dateNow : Z) (body0 : gmap jsstring JVal) (st : State Db)
    (task : Task) (st' : State Db) (status0 priority0 : JVal) :
  post_tasks false parseDate Db Task_create now dateNow body0 st
  = (mkResponse 201 (BTask task), st') →
  (get_tasks false Db Task_find JUndefined JUndefined st').1
  = mkResponse 200 (BTasks (task :: inMemoryTasks st))
  ∧ ∃ listed,
      (get_tasks false Db Task_find status0 priority0 st').1
      = mkResponse 200 (BTasks listed)
      ∧ (task ∈ listed ↔ matchesFilter status0 priority0 task).
Proof.
  intros H.
  assert (Hst : inMemoryTasks st' = task :: inMemoryTasks st).
  { unfold post_tasks in H. destruct (titleRejected _); [discriminate |].
    destruct (createPayload _ _ _) as [payload|]; [| discriminate].
    cbn [negb] in H. by injection H as <- <-. }
  split.
  - unfold get_tasks. simpl. by rewrite Hst.
  - destruct (get_tasks_memory Db Task_find status0 priority0 st')
      as (listed & E & _ & Hin).
    exists listed. rewrite E. split; [done |].
    rewrite Hin, Hst. split; [tauto |].
    intros Hm. split; [by left | done].
Qed.

Lemma find_after_insert (tasks : list Task) (id0 : jsstring)
    (index : nat) (current updated : Task) :
  list_find (λ task, id task = id0) tasks = Some (index, current) →
  id updated = id0 →
  list_find (λ task, id task = id0) (<[index := updated]> tasks)
  = Some (index, updated).
Proof.
  intros H Hid. apply list_find_Some in H as (Hl & _ & Hbefore).
  apply list_find_Some. split; [| split; [done |]].
  - apply list_lookup_insert_eq. by eapply lookup_lt_Some.
  - intros j y Hj Hlt. rewrite list_lookup_insert_ne in Hj by lia.
    by eapply Hbefore.
Qed.

Lemma spread_idemp (current : Task) (update : Update) :
  spread (spread current update) update = spread current update.
Proof.
  unfold spread. simpl.
  by destruct (u_title update), (u_description update), (u_priority update),
    (u_status update), (u_dueDate update).
Qed.

(** X5. An update is idempotent in the in-memory mode: serving the
    same patch request a second time gives the same answer and leaves
    the state as the first left it. *)
Theorem patch_idempotent
    (id0 : jsstring) (body0 : gmap jsstring JVal) (st : State Db) :
  let once := patch_task false parseDate Db Task_findByIdAndUpdate id0 body0 st in
  patch_task false parseDate Db Task_findByIdAndUpdate id0 body0 once.2 = once.
Proof.
  unfold patch_task. cbn [negb].
  destruct (patchUpdate parseDate body0) as [update|]; [| done].
  destruct (list_find _ (inMemoryTasks st)) as [[index current]|] eqn:E;
    cbn [snd].
  - cbn [inMemoryTasks db].
    assert (Hid : id (spread current update) = id0).
    { simpl. by apply find_known in E as [_ E]. }
    rewrite (find_after_insert _ _ _ _ _ E Hid).
    by rewrite spread_idemp, list_insert_insert_eq.
  - by rewrite E.
Qed.

Lemma filter_all {A : Type} (P : A → Prop) `{!∀ x, Decision (P x)} (l : list A) :
  Forall P l → filter P l = l.
Proof.
  induction 1 as [|x l Hx Hl IH]; [done |].
  by rewrite filter_cons_True, IH.
Qed.

(** With pairwise different ids, deleting at the index of the first
    match is dropping every task of that id, and replacing there is
    replacing every task of that id. *)
Lemma find_unique (tasks : list Task) (id0 : jsstring) (index : nat)
    (current updated : Task) :
  NoDup (id <$> tasks) →
  list_find (λ task, id task = id0) tasks = Some (index, current) →
  delete index tasks = filter (λ task, id task ≠ id0) tasks
  ∧ <[index := updated]> tasks
    = map (λ task, if bool_decide (id task = id0) then updated else task) tasks.
Proof.
  revert index. induction tasks as [|x l IH]; intros index Hnd H; [done |].
  simpl in Hnd. apply NoDup_cons in Hnd as [Hx Hnd].
  simpl in H. destruct (decide (id x = id0)) as [Hid | Hid].
  - injection H as <- <-. subst id0.
    assert (Hall : Forall (λ task, id task ≠ id x) l).
    { apply Forall_forall. intros y Hy Heq. apply Hx. rewrite <- Heq.
      by apply list_elem_of_fmap_2. }
    split.
    + simpl. rewrite filter_cons_False by (intros Hne; by apply Hne).
      by rewrite (filter_all _ _ Hall).
    + simpl. rewrite bool_decide_eq_true_2 by done. f_equal.
      clear -Hall. induction Hall as [|y l Hy Hl IH]; [done |].
      simpl. rewrite bool_decide_eq_false_2 by done. by f_equal.
  - destruct (list_find _ l) as [[i c]|] eqn:E; simpl in H; [| discriminate].
    injection H as <- <-. destruct (IH i Hnd eq_refl) as [Hd Hi].
    split.
    + simpl. rewrite filter_cons_True by done. by f_equal.
    + simpl. rewrite bool_decide_eq_false_2 by done. by f_equal.
Qed.

(** X6. In the in-memory mode a delete of an id that some stored task
    has is answered 204 and takes out one task, the first of that id,
    leaving the others in place; when the ids are pairwise different
    no task of that id is left and a second delete is answered 404. *)
Theorem delete_removes_first
    (id0 : jsstring) (st : State Db) (index : nat) (current : Task) :
  list_find (λ task, id task = id0) (inMemoryTasks st) = Some (index, current) →
  let deleted := delete_task false Db Task_findByIdAndDelete id0 st in
  deleted = (mkResponse 204 BEmpty,
             mkState (delete index (inMemoryTasks st)) (db st))
  ∧ S (length (inMemoryTasks deleted.2)) = length (inMemoryTasks st)
  ∧ inMemoryTasks deleted.2 `sublist_of` inMemoryTasks st
  ∧ (NoDup (id <$> inMemoryTasks st) →
       inMemoryTasks deleted.2
       = filter (λ task, id task ≠ id0) (inMemoryTasks st)
       ∧ code (delete_task false Db Task_findByIdAndDelete id0 deleted.2).1
         = 404%nat).
Proof.
  intros H deleted.
  assert (E : deleted = (mkResponse 204 BEmpty,
                         mkState (delete index (inMemoryTasks st)) (db st))).
  { subst deleted. unfold delete_task. cbn [negb]. by rewrite H. }
  rewrite E. cbn [snd inMemoryTasks].
  split; [done |]. split; [| split; [apply sublist_delete |]].
  - apply find_known in H as [H _]. rewrite length_delete by eauto.
    apply lookup_lt_Some in H. lia.
  - intros Hnd. destruct (find_unique _ _ _ _ current Hnd H) as [Hd _].
    split; [done |].
    unfold delete_task. cbn [negb inMemoryTasks].
    rewrite find_unknown; [done |].
    intros task Hin. rewrite Hd in Hin.
    by apply list_elem_of_filter in Hin as [Hne _].
Qed.

(** X7. The two stores do not mix.  In the in-memory mode the database
    state is never changed and the model is never consulted: a run
    ends in the same state whatever the model functions are.  In the
    database mode the array is never changed. *)
Theorem modes_isolated
    (Task_find' : Filter → Db → Settled (list Doc))
    (Task_create' : Payload → Db → Settled Doc * Db)
    (Task_findByIdAndUpdate' : jsstring → Update → Db → Settled (option Doc) * Db)
    (Task_findByIdAndDelete' : jsstring → Db → Settled (option Doc) * Db)
    (rs : list Request) (st : State Db) :
  let memory :=
    run false parseDate Db Task_find Task_create Task_findByIdAndUpdate
      Task_findByIdAndDelete rs st in
  db memory = db st
  ∧ memory = run false parseDate Db Task_find' Task_create'
               Task_findByIdAndUpdate' Task_findByIdAndDelete' rs st
  ∧ inMemoryTasks
      (run true parseDate Db Task_find Task_create Task_findByIdAndUpdate
         Task_findByIdAndDelete rs st)
    = inMemoryTasks st.
Proof.
  revert st. induction rs as [|r rs IH]; intros st; [done |].
  cbn [run]. split; [| split].
  - destruct (IH (handle false parseDate Db Task_find Task_create
                    Task_findByIdAndUpdate Task_findByIdAndDelete r st).2)
      as (-> & _ & _).
    destruct r; simpl.
    + unfold get_tasks. by simpl.
    + unfold post_tasks. destruct (titleRejected _); [done |].
      by destruct (createPayload _ _ _).
    + unfold patch_task. destruct (patchUpdate _ _); simpl; [| done].
      by destruct (list_find _ _) as [[? ?]|].
    + unfold delete_task. simpl. by destruct (list_find _ _) as [[? ?]|].
  - destruct (IH (handle false parseDate Db Task_find Task_create
                    Task_findByIdAndUpdate Task_findByIdAndDelete r st).2)
      as (_ & -> & _).
    f_equal; by destruct r.
  - destruct (IH (handle true parseDate Db Task_find Task_create
                    Task_findByIdAndUpdate Task_findByIdAndDelete r st).2)
      as (_ & _ & ->).
    destruct r; simpl.
    + unfold get_tasks. simpl. by destruct (Task_find _ _).
    + unfold post_tasks. destruct (titleRejected _); [done |].
      destruct (createPayload _ _ _); simpl; [| done].
      by destruct (Task_create _ _) as [[?|] ?].
    + unfold patch_task. destruct (patchUpdate _ _); simpl; [| done].
      by destruct (Task_findByIdAndUpdate _ _ _) as [[[?|]|] ?].
    + unfold delete_task. simpl.
      by destruct (Task_findByIdAndDelete _ _) as [[[?|]|] ?].
Qed.

(** X8. The status codes.  A request is answered 500 by the [catch]
    of its handler, which is reached in two ways: [new Date(dueDate)]
    throws (the body's [dueDate] is an object with an own [toString]
    entry, or an array holding one), or the promise of a model call is
    rejected.  In the in-memory mode a listing is always answered 200, a
    delete 204 or 404, a create 201, 400 or 500 and an update 200, 404
    or 500, with 500 exactly when the date throws (for a create: after
    the title was accepted).  In the database mode a request is
    answered 500 exactly when the date throws (for a create: after the
    title was accepted) or the promise of the model call it makes is
    rejected. *)
Theorem status_codes (useDatabase : bool) (r : Request) (st : State Db) :
  let answer :=
    code (handle useDatabase parseDate Db Task_find Task_create
            Task_findByIdAndUpdate Task_findByIdAndDelete r st).1 in
  (useDatabase = false →
     match r with
     | Get _ _ => answer = 200
     | Post _ _ body0 =>
         (answer = 201 ∨ answer = 400 ∨ answer = 500)
         ∧ (answer = 500 ↔
            titleRejected (prop body0 "title") = false ∧ dateThrows body0)
     | Patch _ body0 =>
         (answer = 200 ∨ answer = 404 ∨ answer = 500)
         ∧ (answer = 500 ↔ dateThrows body0)
     | Delete _ => answer = 204 ∨ answer = 404
     end%nat)
  ∧ (useDatabase = true →
     (answer = 500%nat ↔
      match r with
      | Get status0 priority0 =>
          Task_find
            {| flt_status := if truthy status0 then Some status0 else None;
               flt_priority := if truthy priority0 then Some priority0 else None |}
            (db st) = Rejected
      | Post _ _ body0 =>
          titleRejected (prop body0 "title") = false
          ∧ (dateThrows body0
             ∨ ∃ payload,
                 createPayload parseDate
                   (default [] (asString (prop body0 "title"))) body0
                 = Returned payload
                 ∧ (Task_create payload (db st)).1 = Rejected)
      | Patch id0 body0 =>
          dateThrows body0
          ∨ ∃ update,
              patchUpdate parseDate body0 = Returned update
              ∧ (Task_findByIdAndUpdate id0 update (db st)).1 = Rejected
      | Delete id0 => (Task_findByIdAndDelete id0 (db st)).1 = Rejected
      end)).
Proof.
  split; intros ->.
  - destruct r as [s p | now dateNow body0 | id0 body0 | id0]; simpl.
    + unfold get_tasks. by simpl.
    + unfold post_tasks. destruct (titleRejected _); simpl.
      { split; [by right; left |]. split; [done | by intros [? _]]. }
      destruct (createPayload_spec parseDate
                  (default [] (asString (prop body0 "title"))) body0)
        as [[Hthrows ->] | (Hn & parsed & -> & _)]; simpl.
      * split; [by right; right | done].
      * split; [by left |]. split; [done | by intros [_ ?]].
    + unfold patch_task.
      destruct (patchUpdate_spec parseDate body0)
        as [[Hthrows ->] | (Hn & parsed & -> & _)]; simpl.
      * split; [by right; right | done].
      * destruct (list_find _ _) as [[? ?]|]; simpl.
        -- split; [by left | done].
        -- split; [by right; left | done].
    + unfold delete_task. simpl.
      destruct (list_find _ _) as [[? ?]|]; simpl; [by left | by right].
  - destruct r as [s p | now dateNow body0 | id0 body0 | id0]; simpl.
    + unfold get_tasks. simpl. destruct (Task_find _ _); simpl; split; done.
    + unfold post_tasks. destruct (titleRejected _); simpl.
      { split; [done | by intros [? _]]. }
      destruct (createPayload_spec parseDate
                  (default [] (asString (prop body0 "title"))) body0)
        as [[Hthrows ->] | (Hn & parsed & -> & _)]; simpl.
      * split; [| done]. intros _. split; [done | by left].
      * destruct (Task_create _ _) as [[doc|] db'] eqn:E; simpl.
        -- split; [done |]. intros [_ [? | (payload & [= <-] & Hr)]]; [done |].
           rewrite E in Hr. discriminate.
        -- split; [| done]. intros _. split; [done |]. right.
           eexists. split; [reflexivity |]. by rewrite E.
    + unfold patch_task.
      destruct (patchUpdate_spec parseDate body0)
        as [[Hthrows ->] | (Hn & parsed & -> & _)]; simpl.
      * split; [| done]. intros _. by left.
      * destruct (Task_findByIdAndUpdate _ _ _) as [[[doc|]|] db'] eqn:E; simpl.
        -- split; [done |]. intros [? | (update & [= <-] & Hr)]; [done |].
           rewrite E in Hr. discriminate.
        -- split; [done |]. intros [? | (update & [= <-] & Hr)]; [done |].
           rewrite E in Hr. discriminate.
        -- split; [| done]. intros _. right.
           eexists. split; [reflexivity |]. by rewrite E.
    + unfold delete_task. simpl.
      destruct (Task_findByIdAndDelete _ _) as [[[?|]|] ?]; simpl; split; done.
Qed.

End Memory.

Lemma post_applies_valid_fields_witness :
  let body0 : gmap jsstring JVal :=
    {[ u16 "title" := JStr (u16 " Ship it ");
       u16 "priority" := JStr (u16 "urgent");
       u16 "status" := JStr (u16 "done") ]} in
  (body0 !! u16 "title" = Some (JStr (u16 " Ship it ")) ∧ trim (u16 " Ship it ") ≠ [])
  ∧ (post_tasks false (λ _, None) unit noDb_create 7 8 body0 (mkState [] tt)).1
    = mkResponse 201
        (BTask (mkTask (u16 "8") (u16 "Ship it") [] (u16 "medium") (u16 "done")
                  None 7)).
Proof.
  intros body0.
  assert (H1 : body0 !! u16 "title" = Some (JStr (u16 " Ship it "))).
  { vm_compute. reflexivity. }
  assert (H2 : trim (u16 " Ship it ") ≠ []) by (vm_compute; discriminate).
  assert (H3 : ¬ dateThrows body0) by (intros [H _]; vm_compute in H; discriminate).
  split; [by split |].
  destruct (proj2 (post_applies_valid_fields (λ _, None) unit noDb_create 7 8
                     body0 (mkState [] tt) _ H1 H2) H3) as (task & E & _).
  rewrite E. vm_compute in E. by injection E as <-.
Defined.

Lemma post_then_list_witness :
  let body0 : gmap jsstring JVal := {[ u16 "title" := JStr (u16 "a") ]} in
  let task := mkTask (u16 "8") (u16 "a") [] (u16 "medium") (u16 "todo") None 7 in
  post_tasks false (λ _, None) unit noDb_create 7 8 body0 (mkState [] tt)
  = (mkResponse 201 (BTask task), mkState [task] tt)
  ∧ (get_tasks false unit noDb_find JUndefined JUndefined (mkState [task] tt)).1
    = mkResponse 200 (BTasks [task]).
Proof.
  intros body0 task.
  assert (H : post_tasks false (λ _, None) unit noDb_create 7 8 body0 (mkState [] tt)
              = (mkResponse 201 (BTask task), mkState [task] tt)).
  { vm_compute. reflexivity. }
  split; [exact H |].
  exact (proj1 (post_then_list (λ _, None) unit noDb_find noDb_create 7 8 body0
                  (mkState [] tt) task (mkState [task] tt) JUndefined JUndefined H)).
Defined.

Lemma delete_removes_first_witness :
  let t1 := mkTask (u16 "1") (u16 "a") [] (u16 "low") (u16 "todo") None 1 in
  let t2 := mkTask (u16 "2") (u16 "b") [] (u16 "low") (u16 "todo") None 2 in
  list_find (λ task, id task = u16 "1") [t2; t1] = Some (1%nat, t1)
  ∧ delete_task false unit noDb_delete (u16 "1") (mkState [t2; t1] tt)
    = (mkResponse 204 BEmpty, mkState [t2] tt).
Proof.
  intros t1 t2.
  assert (H : list_find (λ task, id task = u16 "1")
                (inMemoryTasks (mkState [t2; t1] tt)) = Some (1%nat, t1)).
  { vm_compute. reflexivity. }
  split; [exact H |].
  exact (proj1 (delete_removes_first unit noDb_delete (u16 "1")
                  (mkState [t2; t1] tt) 1%nat t1 H)).
Defined.

(** ** The schema and the create handler *)

(** X9. In the database mode a create request whose title is a string
    that is not blank has one of two courses.  When the body's [dueDate]
    makes [new Date] throw, the [catch] answers 500 "Failed to create
    task" and [Task.create] is not called.  Otherwise [Task.create] is
    called once, its fulfilment is answered 201 and its rejection 500,
    and the payload it is given meets what the schema of models/Task.js
    declares of the paths: the title is the trimmed one and is not
    empty ([required]), and a priority or a status, when given, is one
    of the path's [enum]. *)
Theorem post_database_accepted
    (parseDate : JVal → option Z) (Db : Type)
    (Task_create : Payload → Db → Settled Doc * Db) (now dateNow : Z)
    (body0 : gmap jsstring JVal) (st : State Db) (s : jsstring) :
  body0 !! u16 "title" = Some (JStr s) →
  trim s ≠ [] →
  (dateThrows body0 →
   post_tasks true parseDate Db Task_create now dateNow body0 st
   = (mkResponse 500 (BError "Failed to create task"), st))
  ∧ (¬ dateThrows body0 →
     ∃ payload,
       createPayload parseDate s body0 = Returned payload
       ∧ post_tasks true parseDate Db Task_create now dateNow body0 st
         = match Task_create payload (db st) with
           | (Fulfilled task, db') =>
               (mkResponse 201 (BDoc (toJson task)),
                mkState (inMemoryTasks st) db')
           | (Rejected, db') =>
               (mkResponse 500 (BError "Failed to create task"),
                mkState (inMemoryTasks st) db')
           end
       ∧ p_title payload = trim s
       ∧ p_title payload ≠ []
       ∧ (∀ p allowed, p_priority payload = Some p →
            Mongoose.enum Mongoose.schema_priority = Some allowed → p ∈ allowed)
       ∧ (∀ p allowed, p_status payload = Some p →
            Mongoose.enum Mongoose.schema_status = Some allowed → p ∈ allowed)).
Proof.
  intros Ht Hs.
  assert (Etitle : prop body0 "title" = JStr s).
  { unfold prop. by rewrite Ht. }
  assert (Hrej : titleRejected (JStr s) = false).
  { apply not_true_is_false. by rewrite titleRejected_string. }
  split.
  - intros Hdate. unfold post_tasks. rewrite Etitle, Hrej.
    by destruct (createPayload_spec parseDate
                   (default [] (asString (JStr s))) body0)
      as [[_ ->] | [Hn _]].
  - intros Hdate. unfold post_tasks. rewrite Etitle, Hrej.
    change (default [] (asString (JStr s))) with s.
    destruct (createPayload parseDate s body0) as [payload|] eqn:E.
    + destruct (createPayload_sane parseDate s body0 payload E)
        as (Hpt & _ & Hpp & Hps).
      exists payload. split; [done |]. split; [done |].
      split; [done |]. split; [by rewrite Hpt |].
      split; intros p allowed Hp [= <-]; [by apply Hpp | by apply Hps].
    + destruct (createPayload_spec parseDate s body0)
        as [[Hthrows _] | (_ & parsed & E' & _)]; [done |].
      rewrite E' in E. discriminate.
Qed.

Lemma post_database_accepted_witness :
  let body0 : gmap jsstring JVal :=
    {[ u16 "title" := JStr (u16 " a "); u16 "priority" := JStr (u16 "high") ]} in
  (body0 !! u16 "title" = Some (JStr (u16 " a ")) ∧ trim (u16 " a ") ≠ [])
  ∧ code (post_tasks true (λ _, None) (list Doc) (Mongoose.create (u16 "65f0") 9)
            9 9 body0 (mkState [] [])).1 = 201%nat.
Proof.
  intros body0.
  assert (H1 : body0 !! u16 "title" = Some (JStr (u16 " a "))).
  { vm_compute. reflexivity. }
  assert (H2 : trim (u16 " a ") ≠ []) by (vm_compute; discriminate).
  assert (H3 : ¬ dateThrows body0) by (intros [H _]; vm_compute in H; discriminate).
  split; [by split |].
  destruct (proj2 (post_database_accepted (λ _, None) (list Doc)
                     (Mongoose.create (u16 "65f0") 9) 9 9 body0
                     (mkState [] []) _ H1 H2) H3) as (payload & E & -> & _).
  vm_compute in E. injection E as <-. vm_compute. reflexivity.
Defined.

(** ** Identifiers and the clock *)



(** ** Derived views of the board *)

Section Views.

Import Board.

Let isTodo (task : Task) : Prop := status task = u16 "todo".
Let isInProgress (task : Task) : Prop := status task = u16 "in-progress".
Let isDone (task : Task) : Prop := status task = u16 "done".
Let inherited (task : Task) : Prop := status task ∈ objectPrototypeKeys.

Lemma bucket_not_inherited (s : jsstring) :
  s ∈ allowedStatus → s ∉ objectPrototypeKeys.
Proof.
  intros H. apply allowedStatus_cases in H as [-> | [-> | ->]];
    apply (bool_decide_unpack _); vm_compute; exact I.
Qed.

(** One step of the loop, by the status of the task. *)
Lemma pushTask_cases (g : Groups) (task : Task) :
  (inherited task ∧ pushTask g task = None)
  ∨ (¬ inherited task
     ∧ pushTask g task
       = Some (mkGroups (todo g ++ filter isTodo [task])
                        (in_progress g ++ filter isInProgress [task])
                        (done g ++ filter isDone [task]))).
Proof.
  unfold pushTask, inherited, isTodo, isInProgress, isDone.
  destruct (decide (status task = u16 "todo")) as [E | N1].
  { right. split.
    - apply bucket_not_inherited. rewrite E.
      apply (bool_decide_unpack _). vm_compute. exact I.
    - rewrite (bool_decide_eq_true_2 _ E), !filter_cons, !filter_nil, E.
      simpl. by rewrite !app_nil_r. }
  rewrite (bool_decide_eq_false_2 _ N1).
  destruct (decide (status task = u16 "in-progress")) as [E | N2].
  { right. split.
    - apply bucket_not_inherited. rewrite E.
      apply (bool_decide_unpack _). vm_compute. exact I.
    - rewrite (bool_decide_eq_true_2 _ E), !filter_cons, !filter_nil, E.
      simpl. by rewrite !app_nil_r. }
  rewrite (bool_decide_eq_false_2 _ N2).
  destruct (decide (status task = u16 "done")) as [E | N3].
  { right. split.
    - apply bucket_not_inherited. rewrite E.
      apply (bool_decide_unpack _). vm_compute. exact I.
    - rewrite (bool_decide_eq_true_2 _ E), !filter_cons, !filter_nil, E.
      simpl. by rewrite !app_nil_r. }
  rewrite (bool_decide_eq_false_2 _ N3).
  destruct (decide (status task ∈ objectPrototypeKeys)) as [E | N4].
  - left. split; [done |]. by rewrite (bool_decide_eq_true_2 _ E).
  - right. split; [done |]. rewrite (bool_decide_eq_false_2 _ N4).
    rewrite !filter_cons_False, !filter_nil, !app_nil_r by done.
    by destruct g.
Qed.

Lemma groupLoop_cases (tasks : list Task) (g : Groups) :
  (Exists inherited tasks ∧ groupLoop g tasks = None)
  ∨ (¬ Exists inherited tasks
     ∧ groupLoop g tasks
       = Some (mkGroups (todo g ++ filter isTodo tasks)
                        (in_progress g ++ filter isInProgress tasks)
                        (done g ++ filter isDone tasks))).
Proof.
  revert g. induction tasks as [|task rest IH]; intros g.
  - right. split; [by intros ?%Exists_nil |].
    simpl. rewrite !filter_nil, !app_nil_r. by destruct g.
  - simpl. destruct (pushTask_cases g task) as [[Hi ->] | [Hn ->]].
    + left. split; [by left | done].
    + destruct (IH (mkGroups (todo g ++ filter isTodo [task])
                      (in_progress g ++ filter isInProgress [task])
                      (done g ++ filter isDone [task])))
        as [[He ->] | [Hne ->]].
      * left. split; [by right | done].
      * right. split.
        { intros [? | ?]%Exists_cons; done. }
        cbn [todo in_progress done].
        rewrite <- !app_assoc.
        by rewrite <- !(filter_app _ [task] rest).
Qed.

(** X11. The grouped view for any collection.  The computation throws
    exactly when some task has a status that names a property every
    object inherits (such as "constructor").  Otherwise each bucket is
    the tasks of its status in the order of the collection, a task of
    any other status is in no bucket, and the Done bucket has as many
    tasks as the completion rate counts. *)
Theorem groupedTasks_any (tasks : list Task) :
  ((groupedTasks tasks = None)
   ↔ (∃ task, task ∈ tasks ∧ status task ∈ objectPrototypeKeys))
  ∧ ∀ groups, groupedTasks tasks = Some groups →
      todo groups = filter (λ task, status task = u16 "todo") tasks
      ∧ in_progress groups = filter (λ task, status task = u16 "in-progress") tasks
      ∧ done groups = filter (λ task, status task = u16 "done") tasks
      ∧ (∀ task, status task ∉ allowedStatus →
           (task ∉ todo groups) ∧ (task ∉ in_progress groups)
           ∧ (task ∉ done groups))
      ∧ length (done groups) = doneCount tasks.
Proof.
  unfold groupedTasks.
  destruct (groupLoop_cases tasks (mkGroups [] [] [])) as [[He E] | [Hne E]];
    rewrite E; split.
  - split; [| done]. intros _. apply Exists_exists in He as (task & Hin & Hi).
    by exists task.
  - discriminate.
  - split; [discriminate |]. intros (task & Hin & Hi). destruct Hne.
    apply Exists_exists. by exists task.
  - intros groups [= <-]. cbn [todo in_progress done app].
    split; [done |]. split; [done |]. split; [done |]. split; [| done].
    intros task Hs. rewrite !list_elem_of_filter.
    unfold isTodo, isInProgress, isDone.
    rewrite allowedStatus_cases in Hs. tauto.
Qed.

End Views.

(** ** Completion rate on small boards *)

Lemma rate_upto_200 (n d : nat) :
  (n ≤ 200)%nat → (d ≤ n)%nat →
  let rate :=
    if bool_decide (n = 0%nat) then 0%Z
    else Math_round
           (num_mul (num_div (num_of_Z (Z.of_nat d)) (num_of_Z (Z.of_nat n)))
                    (num_of_Z 100)) in
  let exact := roundedPercent d n in
  (0 ≤ rate ≤ 100)%Z
  ∧ (exact - 1 ≤ rate ≤ exact)%Z
  ∧ (d = 0%nat → rate = 0%Z)
  ∧ (n ≠ 0%nat → d = n → rate = 100%Z).
Proof.
  intros Hn Hd. unfold roundedPercent.
  assert (Hall : forallb (λ n,
            forallb (λ d,
              let rate :=
                if bool_decide (n = 0%nat) then 0%Z
                else Math_round
                       (num_mul (num_div (num_of_Z (Z.of_nat d))
                                         (num_of_Z (Z.of_nat n)))
                                (num_of_Z 100)) in
              let exact :=
                if bool_decide (n = 0%nat) then 0%Z
                else ((200 * Z.of_nat d + Z.of_nat n) / (2 * Z.of_nat n))%Z in
              (0 <=? rate)%Z && (rate <=? 100)%Z
              && (exact - 1 <=? rate)%Z && (rate <=? exact)%Z
              && (negb (d =? 0)%nat || (rate =? 0)%Z)
              && (negb (d =? n)%nat || (n =? 0)%nat || (rate =? 100)%Z))
              (seq 0 (S n)))
            (seq 0 201) = true) by (vm_compute; reflexivity).
  rewrite forallb_forall in Hall.
  assert (Hn' : In n (seq 0 201)) by (apply in_seq; lia).
  assert (Hd' : In d (seq 0 (S n))) by (apply in_seq; lia).
  pose proof (Hall n Hn') as Hrow. rewrite forallb_forall in Hrow.
  pose proof (Hrow d Hd') as Hcell. clear Hall Hrow. cbv zeta in Hcell |- *.
  set (rate := if bool_decide (n = 0%nat) then 0%Z else Math_round _) in *.
  set (exact := if bool_decide (n = 0%nat) then 0%Z else (_ / _)%Z) in *.
  apply andb_prop in Hcell as [Hcell H6]. apply andb_prop in Hcell as [Hcell H5].
  apply andb_prop in Hcell as [Hcell H4]. apply andb_prop in Hcell as [Hcell H3].
  apply andb_prop in Hcell as [H1 H2].
  apply Z.leb_le in H1, H2, H3, H4.
  split; [by split |]. split; [by split |]. split.
  - intros E. apply Nat.eqb_eq in E. rewrite E in H5. simpl in H5.
    by apply Z.eqb_eq in H5.
  - intros Hne E. apply Nat.eqb_eq in E. apply Nat.eqb_neq in Hne.
    rewrite E, Hne in H6. simpl in H6. by apply Z.eqb_eq in H6.
Qed.

(** X12. For a collection of at most 200 tasks the computed completion
    rate lies between 0 and 100, is the exactly rounded percentage or
    one below it, is 0 when no task is done and 100 when all are; for
    fewer than 40 tasks it is the exactly rounded percentage. *)
Theorem completionRate_bounds (tasks : list Task) :
  (length tasks ≤ 200)%nat →
  let rate := Board.completionRate tasks in
  let exact := roundedPercent (Board.doneCount tasks) (length tasks) in
  (0 ≤ rate ≤ 100)%Z
  ∧ (exact - 1 ≤ rate ≤ exact)%Z
  ∧ (Board.doneCount tasks = 0%nat → rate = 0%Z)
  ∧ (tasks ≠ [] → Board.doneCount tasks = length tasks → rate = 100%Z)
  ∧ ((length tasks < 40)%nat → rate = exact).
Proof.
  intros Hlen rate exact.
  destruct (rate_upto_200 (length tasks) (Board.doneCount tasks) Hlen
              (doneCount_le_length tasks)) as (H1 & H2 & H3 & H4).
  split; [exact H1 |]. split; [exact H2 |]. split; [exact H3 |].
  split; [| apply completionRate_below_40].
  intros Hne. apply H4. by destruct tasks.
Qed.

Lemma completionRate_bounds_witness :
  let t (s : string) := mkTask [] [] [] [] (u16 s) None 0 in
  let tasks := replicate 23 (t "done") ++ replicate 17 (t "todo") in
  (length tasks ≤ 200)%nat
  ∧ (roundedPercent 23 40 - 1 ≤ Board.completionRate tasks ≤ roundedPercent 23 40)%Z.
Proof.
  intros t tasks.
  assert (H : (length tasks ≤ 200)%nat) by (vm_compute; lia).
  split; [exact H |].
  exact (proj1 (proj2 (completionRate_bounds tasks H))).
Defined.

(** ** The board's calls *)

Lemma orWentWrong_nonempty (message : jsstring) : App.orWentWrong message ≠ [].
Proof.
  unfold App.orWentWrong, truthy.
  destruct (decide (message = [])) as [-> | H]; [by vm_compute |].
  by rewrite (bool_decide_eq_false_2 _ H).
Qed.

Lemma failed_shape (message : jsstring) (st : App.AppState) :
  ∃ shown, shown ≠ []
    ∧ App.failed message st
      = App.mkApp (App.tasks st) (App.title st) (App.description st)
          (App.priority st) (App.dueDate st) (App.statusFilter st)
          (App.priorityFilter st) false shown.
Proof.
  exists (App.orWentWrong message). split; [apply orWentWrong_nonempty | done].
Qed.

(** X13. A call of the board that does not succeed (the fetch is
    rejected, the status is not from 200 to 299, or the body cannot be
    read) leaves the task collection, the form and the filters as they
    were, ends with the busy flag cleared and shows an error message
    that is not empty.  For [deleteTask] the extra test on 204 changes
    nothing: the call fails exactly when the response is not ok. *)
Theorem failure_keeps_collection (st : App.AppState) :
  let kept (st' : App.AppState) : Prop :=
    ∃ shown, shown ≠ []
      ∧ st' = App.mkApp (App.tasks st) (App.title st) (App.description st)
                (App.priority st) (App.dueDate st) (App.statusFilter st)
                (App.priorityFilter st) false shown in
  (∀ fetch, unsuccessful (fetch (App.loadQuery st).1 (App.loadQuery st).2) →
     kept (App.loadTasks fetch st))
  ∧ (∀ fetch, trim (App.title st) ≠ [] →
       unsuccessful (fetch (App.createBody st)) →
       kept (App.handleCreateTask fetch st))
  ∧ (∀ fetch id0 updates, unsuccessful (fetch id0 updates) →
       kept (App.updateTask fetch id0 updates st))
  ∧ (∀ fetch id0,
       match fetch id0 with
       | App.Failed _ => True
       | App.Answered code0 _ => App.ok code0 = false
       end →
       kept (App.deleteTask fetch id0 st)).
Proof.
  intros kept. subst kept. cbv beta.
  split; [| split; [| split]].
  - intros fetch H. unfold App.loadTasks.
    destruct (fetch _ _) as [m | c [m | data]]; simpl in H.
    + apply failed_shape.
    + destruct (App.ok c); apply failed_shape.
    + destruct H as [-> | [m [=]]]. apply failed_shape.
  - intros fetch Ht H. unfold App.handleCreateTask, truthy.
    rewrite (bool_decide_eq_false_2 _ Ht). cbn [negb].
    destruct (fetch _) as [m | c [m | data]]; simpl in H.
    + apply failed_shape.
    + destruct (App.ok c); apply failed_shape.
    + destruct H as [-> | [m [=]]]. apply failed_shape.
  - intros fetch id0 updates H. unfold App.updateTask.
    destruct (fetch _ _) as [m | c [m | data]]; simpl in H.
    + apply failed_shape.
    + destruct (App.ok c); apply failed_shape.
    + destruct H as [-> | [m [=]]]. apply failed_shape.
  - intros fetch id0 H. unfold App.deleteTask.
    destruct (fetch _) as [m | c json]; [apply failed_shape |].
    rewrite H. cbn [negb andb].
    assert (Hc : c ≠ 204%nat).
    { intros ->. by vm_compute in H. }
    rewrite (bool_decide_eq_false_2 _ Hc). apply failed_shape.
Qed.

Section EndToEnd.

Variable parseDate : JVal → option Z.
Variable Db : Type.
Variable Task_find : Filter → Db → Settled (list Doc).
Variable Task_create : Payload → Db → Settled Doc * Db.
Variable Task_findByIdAndUpdate : jsstring → Update → Db → Settled (option Doc) * Db.
Variable Task_findByIdAndDelete : jsstring → Db → Settled (option Doc) * Db.

(** X14. The board against the in-memory server, with ids that are
    pairwise different: when the board holds the array of the server,
    it holds it again after an [updateTask] and after a [deleteTask],
    whether the server answers with success or with 404. *)
Theorem board_follows_server (app : App.AppState) (st : State Db) :
  App.tasks app = inMemoryTasks st →
  NoDup (id <$> inMemoryTasks st) →
  (∀ fetch id0 updates,
     (∀ i u, delivered
               (patch_task false parseDate Db Task_findByIdAndUpdate i u st).1
               (fetch i u)) →
     App.tasks (App.updateTask fetch id0 updates app)
     = inMemoryTasks
         (patch_task false parseDate Db Task_findByIdAndUpdate id0 updates st).2)
  ∧ (∀ fetch id0,
       (∀ i, deliveredStatus
               (delete_task false Db Task_findByIdAndDelete i st).1 (fetch i)) →
       App.tasks (App.deleteTask fetch id0 app)
       = inMemoryTasks (delete_task false Db Task_findByIdAndDelete id0 st).2).
Proof.
  intros Hsync Hnd. split.
  - intros fetch id0 updates Hfetch.
    destruct (Hfetch id0 updates) as (json & Ef & Hjson).
    unfold App.updateTask. rewrite Ef. clear Ef Hfetch.
    unfold patch_task in *.
    destruct (patchUpdate parseDate updates) as [update|]; cbn [negb] in *;
      [| by simpl].
    destruct (list_find _ _) as [[index current]|] eqn:E; cbn [fst snd code body] in *.
    + rewrite (Hjson _ eq_refl). simpl.
      by destruct (find_unique _ _ _ _ (spread current update) Hnd E)
        as [_ ->]; rewrite Hsync.
    + by simpl.
  - intros fetch id0 Hfetch.
    destruct (Hfetch id0) as (json & Ef).
    unfold App.deleteTask. rewrite Ef. clear Ef.
    unfold delete_task in *. cbn [negb] in *.
    destruct (list_find _ _) as [[index current]|] eqn:E; cbn [fst snd code] in *.
    + simpl. destruct (find_unique _ _ _ _ current Hnd E) as [-> _].
      by rewrite Hsync.
    + by simpl.
Qed.

End EndToEnd.

(** The properties the server reads from the body of the form. *)
Lemma createBody_props (app : App.AppState) :
  App.createBody app !! u16 "title" = Some (JStr (App.title app))
  ∧ prop (App.createBody app) "description" = JStr (App.description app)
  ∧ prop (App.createBody app) "priority" = JStr (App.priority app)
  ∧ prop (App.createBody app) "status" = JUndefined
  ∧ prop (App.createBody app) "dueDate"
    = (if truthy (JStr (App.dueDate app)) then JStr (App.dueDate app)
       else JUndefined).
Proof.
  assert (N1 : u16 "title" ≠ u16 "description") by (vm_compute; discriminate).
  assert (N2 : u16 "title" ≠ u16 "priority") by (vm_compute; discriminate).
  assert (N3 : u16 "title" ≠ u16 "status") by (vm_compute; discriminate).
  assert (N4 : u16 "title" ≠ u16 "dueDate") by (vm_compute; discriminate).
  assert (N5 : u16 "description" ≠ u16 "priority") by (vm_compute; discriminate).
  assert (N6 : u16 "description" ≠ u16 "status") by (vm_compute; discriminate).
  assert (N7 : u16 "description" ≠ u16 "dueDate") by (vm_compute; discriminate).
  assert (N8 : u16 "priority" ≠ u16 "status") by (vm_compute; discriminate).
  assert (N9 : u16 "priority" ≠ u16 "dueDate") by (vm_compute; discriminate).
  assert (N10 : u16 "dueDate" ≠ u16 "status") by (vm_compute; discriminate).
  unfold App.createBody, prop.
  destruct (truthy (JStr (App.dueDate app))); repeat split;
    by simplify_map_eq.
Qed.

Section Form.

Variable parseDate : JVal → option Z.
Variable Db : Type.
Variable Task_create : Payload → Db → Settled Doc * Db.

(** X15. Submitting the form.  With a blank title nothing is sent and
    the state stays as it is.  Otherwise the in-memory server accepts
    the request (the 400 path is never taken from the form): the task
    it creates has the trimmed title and description, status "todo",
    the priority of the form when it is one of the enumeration and
    "medium" otherwise, and no due date when the field is empty; once
    the answer is delivered the board puts the task in front of its
    collection and resets the form. *)
Theorem form_submission (app : App.AppState) :
  (trim (App.title app) = [] → ∀ fetch, App.handleCreateTask fetch app = app)
  ∧ (trim (App.title app) ≠ [] →
     ∀ (now dateNow : Z) (st : State Db),
     ∃ task,
       post_tasks false parseDate Db Task_create now dateNow
         (App.createBody app) st
       = (mkResponse 201 (BTask task), mkState (task :: inMemoryTasks st) (db st))
       ∧ title task = trim (App.title app)
       ∧ description task = trim (App.description app)
       ∧ status task = u16 "todo"
       ∧ (App.priority app ∈ allowedPriority → priority task = App.priority app)
       ∧ (App.priority app ∉ allowedPriority → priority task = u16 "medium")
       ∧ (App.dueDate app = [] → dueDate task = None)
       ∧ ∀ fetch,
           (∀ body0, delivered
                       (post_tasks false parseDate Db Task_create now dateNow
                          body0 st).1 (fetch body0)) →
           App.handleCreateTask fetch app
           = App.mkApp (task :: App.tasks app) (u16 "") (u16 "") (u16 "medium")
               (u16 "") (App.statusFilter app) (App.priorityFilter app)
               false (u16 "")).
Proof.
  split.
  - intros Ht fetch. unfold App.handleCreateTask, truthy.
    by rewrite (bool_decide_eq_true_2 _ Ht).
  - intros Ht now dateNow st.
    destruct (createBody_props app) as (Bt & Bd & Bp & Bs & Bq).
    assert (Hdate : ¬ dateThrows (App.createBody app)).
    { unfold dateThrows. rewrite Bq. intros [_ H].
      by destruct (truthy (JStr (App.dueDate app))). }
    destruct (post_fields_memory parseDate Db Task_create now dateNow
                (App.createBody app) st (App.title app) Bt Ht Hdate)
      as (task & E & _ & _ & Etitle & Hd & _ & Hp & Hnp & _ & Hns & _ & Hnq).
    exists task. split; [exact E |]. split; [exact Etitle |].
    split; [by apply Hd |]. split.
    { apply Hns. rewrite Bs. intros (s & Hs & _). discriminate. }
    split.
    { intros Hin. assert (Hv : validPriority (prop (App.createBody app) "priority")).
      { rewrite Bp. by eexists. }
      specialize (Hp Hv). rewrite Bp in Hp. by injection Hp. }
    split.
    { intros Hnin. apply Hnp. rewrite Bp. intros (p & [= <-] & Hin). done. }
    split.
    { intros Hq. apply Hnq. rewrite Bq, Hq. simpl. intros [Hv _]. discriminate. }
    intros fetch Hfetch.
    destruct (Hfetch (App.createBody app)) as (json & Ef & Hjson).
    rewrite E in Ef, Hjson. cbn [fst code body] in Ef, Hjson.
    unfold App.handleCreateTask, truthy.
    rewrite (bool_decide_eq_false_2 _ Ht). cbn [negb].
    by rewrite Ef, (Hjson task eq_refl).
Qed.

End Form.

Section Loading.

Variable Db : Type.
Variable Task_find : Filter → Db → Settled (list Doc).

(** X16. Loading against the in-memory server always succeeds: the busy
    flag is cleared, no error is shown, and the board holds, in the
    order of the array, exactly the stored tasks that pass the two
    filters of the board; a filter set to "all" (or to the empty
    string) lets every task pass. *)
Theorem loadTasks_filters (app : App.AppState) (st : State Db) fetch :
  (∀ s p, deliveredList (get_tasks false Db Task_find s p st).1 (fetch s p)) →
  let app' := App.loadTasks fetch app in
  App.loading app' = false
  ∧ App.error app' = u16 ""
  ∧ App.tasks app' `sublist_of` inMemoryTasks st
  ∧ ∀ task, task ∈ App.tasks app' ↔
      task ∈ inMemoryTasks st
      ∧ (App.statusFilter app = u16 "all" ∨ App.statusFilter app = u16 ""
         ∨ status task = App.statusFilter app)
      ∧ (App.priorityFilter app = u16 "all" ∨ App.priorityFilter app = u16 ""
         ∨ priority task = App.priorityFilter app).
Proof.
  intros Hfetch app'. subst app'. unfold App.loadTasks.
  destruct (Hfetch (App.loadQuery app).1 (App.loadQuery app).2)
    as (json & Ef & Hjson).
  destruct (get_tasks_memory Db Task_find (App.loadQuery app).1
              (App.loadQuery app).2 st) as (listed & E & Hsub & Hin).
  rewrite E in Ef, Hjson. cbn [fst code body] in Ef, Hjson.
  rewrite Ef, (Hjson listed eq_refl). simpl.
  split; [done |]. split; [done |]. split; [done |].
  intros task. rewrite Hin. unfold matchesFilter, supplied, App.loadQuery.
  cbn [fst snd].
  assert (Hq : ∀ (flt field : jsstring),
    (truthy (if bool_decide (flt = u16 "all") then JUndefined else JStr flt) = true →
     (if bool_decide (flt = u16 "all") then JUndefined else JStr flt) = JStr field)
    ↔ (flt = u16 "all" ∨ flt = u16 "" ∨ field = flt)).
  { intros flt field. destruct (decide (flt = u16 "all")) as [-> | Hall].
    - rewrite bool_decide_eq_true_2 by done. simpl. split; [by left | done].
    - rewrite bool_decide_eq_false_2 by done. simpl.
      destruct (decide (flt = [])) as [-> | Hne].
      + rewrite bool_decide_eq_true_2 by done. simpl.
        split; [by right; left | done].
      + rewrite bool_decide_eq_false_2 by done. simpl. split.
        * intros H. right. right. by injection (H eq_refl).
        * intros [? | [? | ->]] _; done. }
  by rewrite !Hq.
Qed.

End Loading.

(** ** Start-up *)

(** X17. [start] always ends by listening, exactly once, on the port of
    the environment or on 4000, whether or not the database can be
    reached; it announces the connection exactly when MONGO_URI is a
    non-empty string and the connection succeeds, and the error
    "MONGO_URI is not set" of [connectToDatabase] cannot arise from it,
    because it only connects when the variable is set. *)
Theorem start_always_listens (connect : jsstring → Settled unit)
    (MONGO_URI PORT : option jsstring) :
  let events := Startup.start connect MONGO_URI PORT in
  let port := match PORT with
              | Some p => if bool_decide (p = []) then inr 4000%Z else inl p
              | None => inr 4000%Z
              end in
  (∃ before, events = before ++ [Startup.Listen port]
             ∧ ∀ q, Startup.Listen q ∉ before)
  ∧ (Startup.Log "Connected to MongoDB" ∈ events
     ↔ ∃ uri, MONGO_URI = Some uri ∧ uri ≠ [] ∧ connect uri = Fulfilled tt)
  ∧ (Startup.envTruthy MONGO_URI = true →
     Startup.connectToDatabase connect MONGO_URI ≠ None)
  ∧ (Startup.envTruthy MONGO_URI = false →
     events = [Startup.Listen port]
     ∧ Startup.connectToDatabase connect MONGO_URI = None).
Proof.
  unfold Startup.start, Startup.connectToDatabase, Startup.envTruthy, truthy.
  assert (Hport : match PORT with
                  | Some p => if negb (bool_decide (p = [])) then inl p else inr 4000%Z
                  | None => inr 4000%Z
                  end
                  = match PORT with
                    | Some p => if bool_decide (p = []) then inr 4000%Z else inl p
                    | None => @inr jsstring Z 4000%Z
                    end).
  { destruct PORT as [p|]; [| done]. by destruct (bool_decide (p = [])). }
  cbv zeta. rewrite Hport. clear Hport.
  destruct MONGO_URI as [uri|].
  - destruct (decide (uri = [])) as [-> | Hne].
    + simpl. split; [exists []; split; [done | intros q ?%elem_of_nil; done] |].
      split; [| split; [discriminate | done]].
      rewrite list_elem_of_singleton. split; [discriminate |].
      intros (u & [= <-] & Hu & _). done.
    + rewrite (bool_decide_eq_false_2 _ Hne). cbn [negb].
      destruct (connect uri) as [[]|] eqn:Ec; simpl.
      * split.
        { eexists [_]. split; [done |].
          intros q Hq. apply list_elem_of_singleton in Hq. discriminate. }
        split; [| split; [done | discriminate]].
        split; [| intros _; by left].
        intros _. by exists uri.
      * split.
        { eexists [_]. split; [done |].
          intros q Hq. apply list_elem_of_singleton in Hq. discriminate. }
        split; [| split; [done | discriminate]].
        rewrite !elem_of_cons, elem_of_nil. split.
        { intros [? | [? | []]]; discriminate. }
        intros (u & [= <-] & _ & Hu). congruence.
  - simpl. split; [exists []; split; [done | intros q ?%elem_of_nil; done] |].
    split; [| split; [discriminate | done]].
    rewrite list_elem_of_singleton. split; [discriminate |].
    intros (u & [=] & _).
Qed.

Lemma board_follows_server_witness :
  let task := mkTask (u16 "1") (u16 "a") [] (u16 "low") (u16 "todo") None 1 in
  let app := App.mkApp [task] [] [] (u16 "medium") [] (u16 "all") (u16 "all")
               false [] in
  let fetch (i : jsstring) : App.Fetched unit :=
    App.Answered
      (code (delete_task false unit noDb_delete i (mkState [task] tt)).1)
      (inr tt) in
  (App.tasks app = [task] ∧ NoDup (id <$> [task]))
  ∧ App.tasks (App.deleteTask fetch (u16 "1") app) = [].
Proof.
  intros task app fetch.
  assert (H1 : App.tasks app = inMemoryTasks (mkState [task] tt)) by reflexivity.
  assert (H2 : NoDup (id <$> inMemoryTasks (mkState [task] tt))).
  { apply (bool_decide_unpack _). vm_compute. exact I. }
  split; [by split |].
  rewrite (proj2 (board_follows_server (λ _, None) unit noDb_update noDb_delete
                    app (mkState [task] tt) H1 H2) fetch (u16 "1")).
  - vm_compute. reflexivity.
  - intros i. by eexists.
Defined.

Lemma loadTasks_filters_witness :
  let t1 := mkTask (u16 "1") (u16 "a") [] (u16 "low") (u16 "done") None 1 in
  let t2 := mkTask (u16 "2") (u16 "b") [] (u16 "low") (u16 "todo") None 2 in
  let st := mkState [t2; t1] tt in
  let app := App.mkApp [] [] [] (u16 "medium") [] (u16 "done") (u16 "all")
               true (u16 "old") in
  let fetch (s p : JVal) : App.Fetched (list Task) :=
    let r := (get_tasks false unit noDb_find s p st).1 in
    App.Answered (code r)
      match body r with BTasks l => inr l | _ => inl [] end in
  (∀ s p, deliveredList (get_tasks false unit noDb_find s p st).1 (fetch s p))
  ∧ App.error (App.loadTasks fetch app) = u16 "".
Proof.
  intros t1 t2 st app fetch.
  assert (H : ∀ s p, deliveredList (get_tasks false unit noDb_find s p st).1
                       (fetch s p)).
  { intros s p. eexists. split; [reflexivity |].
    intros tasks E. by rewrite E. }
  split; [exact H |].
  exact (proj1 (proj2 (loadTasks_filters unit noDb_find app st fetch H))).
Defined.

(** ** Titles, when no update blanks one *)

Section Titles.

Variable parseDate : JVal → option Z.
Variable Db : Type.
Variable Task_find : Filter → Db → Settled (list Doc).
Variable Task_create : Payload → Db → Settled Doc * Db.
Variable Task_findByIdAndUpdate : jsstring → Update → Db → Settled (option Doc) * Db.
Variable Task_findByIdAndDelete : jsstring → Db → Settled (option Doc) * Db.

Lemma serve_titles (r : Request) (st : State Db) :
  ¬ blanksTitle r →
  Forall (λ task, ¬ blank (title task)) (inMemoryTasks st) →
  Forall (λ task, ¬ blank (title task))
    (inMemoryTasks
       (handle false parseDate Db Task_find Task_create Task_findByIdAndUpdate
          Task_findByIdAndDelete r st).2).
Proof.
  intros Hr Hst. destruct r as [s p | now dateNow body0 | id0 body0 | id0]; simpl.
  - unfold get_tasks. by simpl.
  - destruct (titleRejected (prop body0 "title")) eqn:Hrej.
    + unfold post_tasks. by rewrite Hrej.
    + assert (Hm : ¬ titleMissing body0).
      { rewrite <- titleRejected_spec. by rewrite Hrej. }
      destruct (createPayload_spec parseDate
                  (default [] (asString (prop body0 "title"))) body0)
        as [[Hthrows E] | [Hn _]].
      { unfold post_tasks. by rewrite Hrej, E. }
      destruct (post_stores_trimmed_title parseDate Db Task_create now dateNow
                  body0 st Hm Hn) as (s & task & _ & -> & _ & Hb).
      by constructor.
  - unfold patch_task.
    destruct (patchUpdate_spec parseDate body0)
      as [[_ ->] | (_ & parsed & -> & _)]; simpl; [done |].
    destruct (list_find _ _) as [[index current]|] eqn:E; simpl; [| done].
    apply find_known in E as [E _].
    apply Forall_insert; [done |].
    assert (Hc : ¬ blank (title current)).
    { apply (proj1 (Forall_forall _ _) Hst). by eapply list_elem_of_lookup_2. }
    unfold spread. cbn [title u_title]. rewrite string_guard.
    unfold prop. destruct (body0 !! u16 "title") as [[| |b|x|s|l|l]|] eqn:Et;
      simpl; try done.
    apply trim_not_blank. intros Hs. apply Hr. simpl. by exists s.
  - unfold delete_task. simpl.
    destruct (list_find _ _) as [[index current]|]; simpl; [| done].
    by apply Forall_delete.
Qed.

(** X18. In the in-memory mode the title invariant holds along every
    run in which no update carries a blank title: every stored title
    then is neither empty nor made of white space only.  (The board
    only ever updates [status].) *)
Theorem run_titles_not_blank (rs : list Request) (d0 : Db) :
  Forall (λ r, ¬ blanksTitle r) rs →
  Forall (λ task, ¬ blank (title task))
    (inMemoryTasks
       (run false parseDate Db Task_find Task_create Task_findByIdAndUpdate
          Task_findByIdAndDelete rs (mkState [] d0))).
Proof.
  intros Hrs.
  assert (Hgen : ∀ st, Forall (λ task, ¬ blank (title task)) (inMemoryTasks st) →
    Forall (λ task, ¬ blank (title task))
      (inMemoryTasks
         (run false parseDate Db Task_find Task_create Task_findByIdAndUpdate
            Task_findByIdAndDelete rs st))).
  { induction Hrs as [|r rs Hr Hrs IH]; intros st Hst; [done |].
    simpl. apply IH. by apply serve_titles. }
  apply Hgen. constructor.
Qed.

(** X19. When two stored tasks share an id, a delete of that id through
    the board is answered 204 and takes out only the first of them on
    the server, while the board drops every task of that id: the board
    that held the server's array no longer does. *)
Theorem duplicate_id_desync
    (app : App.AppState) (st : State Db) (id0 : jsstring)
    (i j : nat) (t1 t2 : Task) (fetch : jsstring → App.Fetched unit) :
  App.tasks app = inMemoryTasks st →
  inMemoryTasks st !! i = Some t1 → inMemoryTasks st !! j = Some t2 →
  (i < j)%nat → id t1 = id0 → id t2 = id0 →
  (∀ k, deliveredStatus
          (delete_task false Db Task_findByIdAndDelete k st).1 (fetch k)) →
  let served := delete_task false Db Task_findByIdAndDelete id0 st in
  code served.1 = 204%nat
  ∧ t2 ∈ inMemoryTasks served.2
  ∧ (∀ task, task ∈ App.tasks (App.deleteTask fetch id0 app) → id task ≠ id0)
  ∧ App.tasks (App.deleteTask fetch id0 app) ≠ inMemoryTasks served.2.
Proof.
  intros Hsync H1 H2 Hij Hid1 Hid2 Hfetch served.
  destruct (list_find (λ task, id task = id0) (inMemoryTasks st))
    as [[k c]|] eqn:E.
  2: { apply list_find_None in E. exfalso.
       apply (proj1 (Forall_forall _ _) E t1); [| done].
       by eapply list_elem_of_lookup_2. }
  assert (Hk : (k ≤ i)%nat).
  { apply list_find_Some in E as (_ & _ & Hmin).
    destruct (decide (k ≤ i)%nat) as [|Hgt]; [done |].
    destruct (Hmin i t1 H1); [lia | done]. }
  assert (Es : served = (mkResponse 204 BEmpty,
                         mkState (delete k (inMemoryTasks st)) (db st))).
  { subst served. unfold delete_task. cbn [negb]. by rewrite E. }
  assert (Hleft : t2 ∈ inMemoryTasks served.2).
  { rewrite Es. cbn [snd inMemoryTasks].
    apply (list_elem_of_lookup_2 _ (j - 1)).
    rewrite list_lookup_delete_ge by lia.
    by replace (S (j - 1)) with j by lia. }
  assert (Hboard : ∀ task, task ∈ App.tasks (App.deleteTask fetch id0 app) →
                           id task ≠ id0).
  { destruct (Hfetch id0) as (json & Ef). fold served in Ef.
    unfold App.deleteTask. rewrite Ef, Es. simpl.
    intros task Hin. by apply list_elem_of_filter in Hin as [Hne _]. }
  split; [by rewrite Es |]. split; [exact Hleft |]. split; [exact Hboard |].
  intros Heq. rewrite <- Heq in Hleft. by apply (Hboard t2 Hleft).
Qed.

End Titles.

Lemma run_titles_not_blank_witness :
  let rs :=
    [Post 5 5 {[ u16 "title" := JStr (u16 " a ") ]};
     Patch (u16 "5") {[ u16 "status" := JStr (u16 "done") ]}] in
  Forall (λ r, ¬ blanksTitle r) rs
  ∧ Forall (λ task, ¬ blank (title task))
      [mkTask (u16 "5") (u16 "a") [] (u16 "medium") (u16 "done") None 5].
Proof.
  intros rs.
  assert (H : Forall (λ r, ¬ blanksTitle r) rs).
  { repeat constructor; [by intros [] |].
    intros (s & Hs & _). vm_compute in Hs. discriminate. }
  split; [exact H |].
  exact (run_titles_not_blank (λ _, None) unit noDb_find noDb_create noDb_update
           noDb_delete rs tt H).
Defined.

Lemma duplicate_id_desync_witness :
  let t1 := mkTask (u16 "7") (u16 "b") [] (u16 "low") (u16 "todo") None 7 in
  let t2 := mkTask (u16 "7") (u16 "a") [] (u16 "low") (u16 "todo") None 7 in
  let st := mkState [t1; t2] tt in
  let app := App.mkApp [t1; t2] [] [] (u16 "medium") [] (u16 "all") (u16 "all")
               false [] in
  let fetch (k : jsstring) : App.Fetched unit :=
    App.Answered (code (delete_task false unit noDb_delete k st).1) (inr tt) in
  (0 < 1)%nat
  ∧ App.tasks (App.deleteTask fetch (u16 "7") app)
    ≠ inMemoryTasks (delete_task false unit noDb_delete (u16 "7") st).2.
Proof.
  intros t1 t2 st app fetch.
  assert (H : (0 < 1)%nat) by lia.
  split; [exact H |].
  apply (duplicate_id_desync unit noDb_delete app st (u16 "7") 0 1 t1 t2 fetch
           eq_refl eq_refl eq_refl H eq_refl eq_refl).
  intros k. by eexists.
Defined.

Lemma status_codes_witness :
  let body0 : gmap jsstring JVal :=
    {[ u16 "dueDate" := JObj [(u16 "toString", JNum (num_of_Z 1))] ]} in
  dateThrows body0
  ∧ code (handle false (λ _, None) unit noDb_find noDb_create noDb_update
            noDb_delete (Get JUndefined JUndefined) (mkState [] tt)).1 = 200%nat
  ∧ code (handle false (λ _, None) unit noDb_find noDb_create noDb_update
            noDb_delete (Patch (u16 "1") body0) (mkState [] tt)).1 = 500%nat
  ∧ code (handle true (λ _, None) unit noDb_find noDb_create noDb_update
            noDb_delete (Delete (u16 "1")) (mkState [] tt)).1 = 500%nat.
Proof.
  intros body0.
  assert (H : dateThrows body0) by (split; vm_compute; reflexivity).
  split; [exact H |]. split; [| split].
  - exact (proj1 (status_codes (λ _, None) unit noDb_find noDb_create
                    noDb_update noDb_delete false (Get JUndefined JUndefined)
                    (mkState [] tt)) eq_refl).
  - exact (proj2 (proj2 (proj1 (status_codes (λ _, None) unit noDb_find
                                  noDb_create noDb_update noDb_delete false
                                  (Patch (u16 "1") body0) (mkState [] tt))
                           eq_refl)) H).
  - exact (proj2 (proj2 (status_codes (λ _, None) unit noDb_find noDb_create
                           noDb_update noDb_delete true (Delete (u16 "1"))
                           (mkState [] tt)) eq_refl) eq_refl).
Defined.

Lemma groupedTasks_any_witness :
  let t (s : string) := mkTask [] [] [] [] (u16 s) None 0 in
  Board.groupedTasks [t "done"; t "archived"; t "todo"]
    = Some (Board.mkGroups [t "todo"] [] [t "done"])
  ∧ length [t "done"] = Board.doneCount [t "done"; t "archived"; t "todo"].
Proof.
  intros t.
  assert (H : Board.groupedTasks [t "done"; t "archived"; t "todo"]
              = Some (Board.mkGroups [t "todo"] [] [t "done"])).
  { vm_compute. reflexivity. }
  split; [exact H |].
  destruct (proj2 (groupedTasks_any [t "done"; t "archived"; t "todo"]) _ H)
    as (_ & _ & _ & _ & Hlen).
  exact Hlen.
Defined.

Lemma failure_keeps_collection_witness :
  let task := mkTask (u16 "1") (u16 "a") [] (u16 "low") (u16 "todo") None 1 in
  let app := App.mkApp [task] [] [] (u16 "medium") [] (u16 "all") (u16 "all")
               false [] in
  let fetch (i : jsstring) : App.Fetched unit := App.Answered 404 (inr tt) in
  App.ok 404 = false
  ∧ ∃ shown, shown ≠ []
      ∧ App.deleteTask fetch (u16 "9") app
        = App.mkApp [task] [] [] (u16 "medium") [] (u16 "all") (u16 "all")
            false shown.
Proof.
  intros task app fetch.
  assert (H : App.ok 404 = false) by reflexivity.
  split; [exact H |].
  exact (proj2 (proj2 (proj2 (failure_keeps_collection app))) fetch (u16 "9") H).
Defined.

Lemma form_submission_witness :
  let app := App.mkApp [] (u16 " Ship it ") (u16 "") (u16 "high") (u16 "")
               (u16 "all") (u16 "all") false [] in
  trim (App.title app) ≠ []
  ∧ ∃ task,
      post_tasks false (λ _, None) unit noDb_create 7 8 (App.createBody app)
        (mkState [] tt)
      = (mkResponse 201 (BTask task), mkState [task] tt)
      ∧ title task = u16 "Ship it" ∧ status task = u16 "todo".
Proof.
  intros app.
  assert (H : trim (App.title app) ≠ []) by (vm_compute; discriminate).
  split; [exact H |].
  destruct (proj2 (form_submission (λ _, None) unit noDb_create app) H 7%Z 8%Z
              (mkState [] tt)) as (task & E & Et & _ & Es & _).
  exists task. split; [exact E |]. split; [| exact Es].
  rewrite Et. vm_compute. reflexivity.
Defined.

Lemma start_always_listens_witness :
  let connect (uri : jsstring) : Settled unit := Rejected in
  Startup.envTruthy (Some (u16 "mongodb://db/tasks")) = true
  ∧ Startup.connectToDatabase connect (Some (u16 "mongodb://db/tasks")) ≠ None
  ∧ Startup.start connect (Some (u16 "mongodb://db/tasks")) None
    = [Startup.LogError "MongoDB connection error"; Startup.Listen (inr 4000%Z)].
Proof.
  intros connect.
  assert (H : Startup.envTruthy (Some (u16 "mongodb://db/tasks")) = true).
  { vm_compute. reflexivity. }
  split; [exact H |]. split.
  - exact (proj1 (proj2 (proj2 (start_always_listens connect
                                  (Some (u16 "mongodb://db/tasks")) None))) H).
  - vm_compute. reflexivity.
Defined.
